(** * telesign.api: a shallow embedding of the TeleSign client module

    The development follows [src/telesign/api.py]: the module-level
    verification-code generator [random_with_n_digits], the [Response]
    envelope, the [ServiceBase] client with its response validation, and
    the seven endpoint operations of [PhoneId] and [Verify].

    Python strings are [string] (code points below 256), Python integers
    are [Z], optional arguments defaulting to [None] are [option], and
    dictionaries keyed by strings are [gmap string string]. *)

From stdpp Require Import base numbers option list strings gmap fin_maps.
From Stdlib Require Import Ascii String ZArith Lia.

Local Open Scope string_scope.
Local Open Scope list_scope.
Local Open Scope Z_scope.

(** ** Python's [json] module

    [json.loads] belongs to the Python standard library.  The theorems
    about the client are stated for an arbitrary decoder; the decoder
    below follows the grammar accepted by [json.loads] on byte-range text
    and is what the closed examples run. *)
Module Json.

(** Decoded documents.  Strings are kept as lists of code points, since
    a [\uXXXX] escape can denote a code point above 255; floating point
    literals keep their lexeme. *)
#[warning="-register-all"]
Inductive value : Type :=
| JNull
| JBool (b : bool)
| JInt (z : Z)
| JFloat (lexeme : string)
| JConst (name : string)
| JString (s : list N)
| JArray (items : list value)
| JObject (members : list (list N * value)).

Definition is_ws (c : ascii) : bool :=
  match c with
  | " "%char | "009"%char | "010"%char | "013"%char => true
  | _ => false
  end.

(** [WHITESPACE.match(s, idx).end()] *)
Fixpoint skip_ws (s : string) : string :=
  match s with
  | String c rest => if is_ws c then skip_ws rest else s
  | EmptyString => s
  end.

Definition is_digit (c : ascii) : bool :=
  let n := N_of_ascii c in ((48 <=? n) && (n <=? 57))%N.

Definition hex_digit (c : ascii) : option N :=
  let n := N_of_ascii c in
  if ((48 <=? n) && (n <=? 57))%N then Some (n - 48)%N
  else if ((97 <=? n) && (n <=? 102))%N then Some (n - 87)%N
  else if ((65 <=? n) && (n <=? 70))%N then Some (n - 55)%N
  else None.

(** The four hexadecimal digits of a [\u] escape. *)
Definition decode_uXXXX (s : string) : option (N * string) :=
  match s with
  | String a (String b (String c (String d rest))) =>
      match hex_digit a, hex_digit b, hex_digit c, hex_digit d with
      | Some x, Some y, Some z, Some w =>
          Some (((x * 16 + y) * 16 + z) * 16 + w, rest)%N
      | _, _, _, _ => None
      end
  | _ => None
  end.

Definition backslash (c : ascii) : option N :=
  match c with
  | "034"%char => Some 34%N
  | "\"%char => Some 92%N
  | "/"%char => Some 47%N
  | "b"%char => Some 8%N
  | "f"%char => Some 12%N
  | "n"%char => Some 10%N
  | "r"%char => Some 13%N
  | "t"%char => Some 9%N
  | _ => None
  end.

(** [py_scanstring] in strict mode, entered after the opening quote.
    The fuel is the number of characters still available. *)
Fixpoint scanstring (fuel : nat) (s : string) : option (list N * string) :=
  match fuel with
  | O => None
  | S fuel' =>
      match s with
      | EmptyString => None
      | String "034" rest => Some ([], rest)
      | String "\" (String "u" rest) =>
          '(uni, rest1) ← decode_uXXXX rest;
          let plain := '(cs, rest') ← scanstring fuel' rest1; Some (uni :: cs, rest') in
          if ((55296 <=? uni) && (uni <=? 56319))%N then
            match rest1 with
            | String "\" (String "u" rest2) =>
                match decode_uXXXX rest2 with
                | Some (uni2, rest3) =>
                    if ((56320 <=? uni2) && (uni2 <=? 57343))%N then
                      '(cs, rest') ← scanstring fuel' rest3;
                      Some ((65536 + N.lor (N.shiftl (uni - 55296) 10) (uni2 - 56320))%N :: cs,
                            rest')
                    else plain
                | None => None
                end
            | _ => plain
            end
          else plain
      | String "\" (String esc rest) =>
          c ← backslash esc;
          '(cs, rest') ← scanstring fuel' rest;
          Some (c :: cs, rest')
      | String "\" EmptyString => None
      | String c rest =>
          if (N_of_ascii c <? 32)%N then None
          else '(cs, rest') ← scanstring fuel' rest; Some (N_of_ascii c :: cs, rest')
      end
  end.

(** Longest prefix of decimal digits. *)
Fixpoint digits (s : string) : string * string :=
  match s with
  | String c rest =>
      if is_digit c then let '(d, r) := digits rest in (String c d, r) else ("", s)
  | EmptyString => ("", s)
  end.

Definition digit_value (acc : Z) (c : ascii) : Z :=
  acc * 10 + (Z.of_N (N_of_ascii c) - 48).

Fixpoint fold_string {A} (f : A → ascii → A) (acc : A) (s : string) : A :=
  match s with
  | String c rest => fold_string f (f acc c) rest
  | EmptyString => acc
  end.

(** [NUMBER_RE]: an optional minus sign, then either a single zero or a
    non-zero digit followed by digits; an optional fraction (a dot and at
    least one digit); an optional exponent (e or E, an optional sign, at
    least one digit). *)
Definition scan_integer (s : string) : option (string * string) :=
  match s with
  | String "0" rest => Some ("0", rest)
  | String c _ =>
      if is_digit c then Some (digits s) else None
  | EmptyString => None
  end.

Definition scan_frac (s : string) : string * string :=
  match s with
  | String "." rest =>
      match digits rest with
      | ("", _) => ("", s)
      | (d, r) => ("." +:+ d, r)
      end
  | _ => ("", s)
  end.

Definition scan_exp (s : string) : string * string :=
  match s with
  | String e rest =>
      if (Ascii.eqb e "e" || Ascii.eqb e "E")%bool then
        let '(sign, rest1) :=
          match rest with
          | String "-" r => ("-", r)
          | String "+" r => ("+", r)
          | _ => ("", rest)
          end in
        match digits rest1 with
        | ("", _) => ("", s)
        | (d, r) => (String e (sign +:+ d), r)
        end
      else ("", s)
  | EmptyString => ("", s)
  end.

Definition scan_number (s : string) : option (value * string) :=
  let '(neg, body) :=
    match s with
    | String "-" r => (true, r)
    | _ => (false, s)
    end in
  '(int, rest) ← scan_integer body;
  let '(frac, rest1) := scan_frac rest in
  let '(exp, rest2) := scan_exp rest1 in
  match frac, exp with
  | "", "" =>
      let n := fold_string digit_value 0 int in
      Some (JInt (if neg then - n else n), rest2)
  | _, _ => Some (JFloat ((if neg then "-" else "") +:+ int +:+ frac +:+ exp), rest2)
  end.

(** [s[idx:idx + len(lit)] == lit], returning what follows. *)
Fixpoint strip_prefix (lit s : string) : option string :=
  match lit, s with
  | EmptyString, _ => Some s
  | String a lit', String b s' => if Ascii.eqb a b then strip_prefix lit' s' else None
  | String _ _, EmptyString => None
  end.

Definition scan_literal (s : string) : option (value * string) :=
  match strip_prefix "null" s with
  | Some r => Some (JNull, r)
  | None =>
  match strip_prefix "true" s with
  | Some r => Some (JBool true, r)
  | None =>
  match strip_prefix "false" s with
  | Some r => Some (JBool false, r)
  | None =>
  match scan_number s with
  | Some res => Some res
  | None =>
  match strip_prefix "NaN" s with
  | Some r => Some (JConst "NaN", r)
  | None =>
  match strip_prefix "Infinity" s with
  | Some r => Some (JConst "Infinity", r)
  | None =>
  match strip_prefix "-Infinity" s with
  | Some r => Some (JConst "-Infinity", r)
  | None => None
  end end end end end end end.

(** [scan_once], [JSONArray] and [JSONObject].  Every recursive call is
    made on one unit of fuel less; a call chain spends at most two units
    per character read. *)
Fixpoint scan_once (fuel : nat) (s : string) : option (value * string) :=
  match fuel with
  | O => None
  | S fuel' =>
      match s with
      | String "034" rest =>
          '(cs, rest') ← scanstring (String.length rest) rest;
          Some (JString cs, rest')
      | String "{" rest =>
          match skip_ws rest with
          | String "}" rest' => Some (JObject [], rest')
          | String "034" rest' =>
              '(ms, rest'') ← scan_members fuel' rest';
              Some (JObject ms, rest'')
          | _ => None
          end
      | String "[" rest =>
          match skip_ws rest with
          | String "]" rest' => Some (JArray [], rest')
          | rest' =>
              '(vs, rest'') ← scan_items fuel' rest';
              Some (JArray vs, rest'')
          end
      | _ => scan_literal s
      end
  end
with scan_items (fuel : nat) (s : string) : option (list value * string) :=
  match fuel with
  | O => None
  | S fuel' =>
      '(v, rest) ← scan_once fuel' s;
      match skip_ws rest with
      | String "]" rest' => Some ([v], rest')
      | String "," rest' =>
          '(vs, rest'') ← scan_items fuel' (skip_ws rest');
          Some (v :: vs, rest'')
      | _ => None
      end
  end
with scan_members (fuel : nat) (s : string)
    : option (list (list N * value) * string) :=
  match fuel with
  | O => None
  | S fuel' =>
      '(key, rest) ← scanstring (String.length s) s;
      match skip_ws rest with
      | String ":" rest1 =>
          '(v, rest2) ← scan_once fuel' (skip_ws rest1);
          match skip_ws rest2 with
          | String "}" rest' => Some ([(key, v)], rest')
          | String "," rest3 =>
              match skip_ws rest3 with
              | String "034" rest4 =>
                  '(ms, rest') ← scan_members fuel' rest4;
                  Some ((key, v) :: ms, rest')
              | _ => None
              end
          | _ => None
          end
      | _ => None
      end
  end.

(** [json.loads(s)]: one document, surrounded by optional whitespace and
    nothing else; [None] stands for the decoder raising. *)
Definition loads (s : string) : option value :=
  '(v, rest) ← scan_once (2 * String.length s + 2) (skip_ws s);
  match skip_ws rest with
  | EmptyString => Some v
  | String _ _ => None
  end.

End Json.


(** ** Outcomes of Python calls *)

(** A call either returns a value or raises. *)
Inductive Outcome (E A : Type) : Type :=
| Returned (a : A)
| Raised (e : E).
Arguments Returned {E A} a.
Arguments Raised {E A} e.

Definition is_raised {E A} (o : Outcome E A) : bool :=
  match o with
  | Raised _ => true
  | Returned _ => false
  end.

(** ** The module-level random source

    [rng = SystemRandom()] draws from the operating system.  The source is
    modelled by the sequence of its raw draws and a cursor into it;
    [_randbelow n] reduces the next draw into [range(n)], which is the
    contract of the library routine and lets the sequence be arbitrary. *)
Record SystemRandom : Type := mkSystemRandom {
  draws : nat → nat;
  cursor : nat
}.

Definition _randbelow (n : nat) (g : SystemRandom) : nat * SystemRandom :=
  ((draws g (cursor g) mod n)%nat, mkSystemRandom (draws g) (S (cursor g))).

(** ** Data exchanged with the collaborators *)

(** [requests]' response object, as far as the module reads it. *)
Record HttpResponse : Type := mkHttpResponse {
  resp_headers : gmap string string;
  status_code : Z;
  text : string
}.

Inductive Verb : Type := GET | POST.

(** A call [requests.get(url=, params=, headers=, proxies=)] or
    [requests.post(url=, data=, headers=, proxies=)]. *)
Record Request : Type := mkRequest {
  req_verb : Verb;
  req_url : string;
  req_params : option (gmap string string);
  req_data : option (gmap string string);
  req_headers : gmap string string;
  req_proxies : option (gmap string string)
}.

(** [requests.codes] *)
Definition codes_ok : Z := 200.
Definition codes_unauthorized : Z := 401.

(** The attributes set by [ServiceBase.__init__]. *)
Record ServiceBase : Type := mkServiceBase {
  _customer_id : string;
  _secret_key : string;
  _api_host : string;
  _proxy : option (gmap string string);
  _url : string
}.

(** The calls that are recorded, in the order they are made: entries into
    the module's code generator, and calls out to the collaborators
    [generate_auth_headers] and [requests]. *)
Inductive Event : Type :=
| CallRandomWithNDigits (n : Z)
| CallGenerateAuthHeaders (customer_id secret_key resource method : string)
    (fields : option (gmap string string))
| CallRequests (r : Request).

Definition is_random_call (e : Event) : bool :=
  match e with
  | CallRandomWithNDigits _ => true
  | _ => false
  end.

(** Python truthiness of an optional string: [None] and the empty string
    are false. *)
Definition truthy (o : option string) : bool :=
  match o with
  | Some (String _ _) => true
  | _ => false
  end.

(** [dict.update]: the entries of [extra] win over those already there. *)
Definition update (fields extra : gmap string string) : gmap string string :=
  extra ∪ fields.

Definition is_not_None {A} (o : option A) : bool :=
  match o with
  | Some _ => true
  | None => false
  end.

(** [fields[k] = v].  Every assignment in the module sits under a guard
    ([if v:] or [if v is not None:]) that excludes [None]. *)
Definition setitem (k : string) (v : option string) (fields : gmap string string)
    : gmap string string :=
  match v with
  | Some s => <[k := s]> fields
  | None => fields
  end.

(** The client after a call into [requests].  Every call site passes
    [proxies=self._proxy]: when that attribute holds a dictionary, the
    library receives the dictionary itself, not a copy, so that what it
    leaves in it is what the client holds afterwards.  With [None] there
    is nothing shared.  (An empty dictionary the library replaces by a
    fresh one of its own; the content [left] being any the library may
    leave, it is then the empty one again.) *)
Definition share_proxies (r : Request) (left : gmap string string) (self : ServiceBase)
    : ServiceBase :=
  match req_proxies r with
  | Some _ =>
      mkServiceBase (_customer_id self) (_secret_key self) (_api_host self) (Some left)
        (_url self)
  | None => self
  end.

(** ** The module, over its collaborators

    [json.loads], [telesign.auth.generate_auth_headers] and [requests] are
    collaborators of the module.  They are taken as parameters: a decoder,
    and two oracles over an outside world [Env] (clock, entropy, network)
    that either return or raise an exception of their own; a third
    parameter gives what [requests] leaves in the proxies dictionary,
    which it shares with the client. *)
Section Api.

Context {JSON ExtExn Env : Type}.

(** [json.loads]; [None] when it raises. *)
Variable json_decoder : string → option JSON.

(** [generate_auth_headers(customer_id, secret_key, resource, method,
    fields=...)].  It reads its arguments and the outside world only
    (spec 4.4: no side effects beyond pure computation). *)
Variable auth_headers :
  string → string → string → string → option (gmap string string) →
  Env → Outcome ExtExn (gmap string string) * Env.

(** [requests.get] and [requests.post]: the answer of the call. *)
Variable http : Request → Env → Outcome ExtExn HttpResponse * Env.

(** What a call into [requests] leaves in the [proxies] dictionary it was
    handed.  The library writes to that dictionary before it sends
    ([Session.merge_environment_settings] runs [proxies.setdefault] for
    the proxy settings of the environment), whether the call then returns
    or raises. *)
Variable proxies_left : Request → Env → gmap string string.

(** Exceptions that can leave the module: those of [telesign.exceptions],
    carrying the decoded body and the HTTP response, the decoder's, the
    [IndexError] of [rng.choice], and whatever a collaborator raises. *)
Inductive Exn : Type :=
| JSONDecodeError
| AuthorizationError (data : JSON) (http_response : HttpResponse)
| TelesignError (data : JSON) (http_response : HttpResponse)
| IndexError
| Foreign (e : ExtExn).

(** [class Response] *)
Record Response : Type := mkResponse {
  data : JSON;
  headers : gmap string string;
  status : Z;
  raw_data : string;
  verify_code : option string
}.

(** [Response.__init__(data, http_response, verify_code=None)] *)
Definition Response_init (d : JSON) (http_response : HttpResponse)
    (code : option string) : Response :=
  {| data := d;
     headers := resp_headers http_response;
     status := status_code http_response;
     raw_data := text http_response;
     verify_code := code |}.

(** What the module's code can reach: the client instance [self], the
    module-level [rng], the outside world, and the boundary calls made so
    far. *)
Record Store : Type := mkStore {
  s_self : ServiceBase;
  s_rng : SystemRandom;
  s_env : Env;
  s_trace : list Event
}.

(** State and exceptions. *)
Definition M (A : Type) : Type := Store → Outcome Exn A * Store.

#[global] Instance M_ret : MRet M := λ A a st, (Returned a, st).

#[global] Instance M_bind : MBind M := λ A B f m st,
  match m st with
  | (Returned a, st') => f a st'
  | (Raised e, st') => (Raised e, st')
  end.

Definition raise {A} (e : Exn) : M A := λ st, (Raised e, st).

(** [self.attr] *)
Definition getattr {A} (attr : ServiceBase → A) : M A :=
  λ st, (Returned (attr (s_self st)), st).

Definition emit (e : Event) : M unit :=
  λ st, (Returned tt, mkStore (s_self st) (s_rng st) (s_env st) (s_trace st ++ [e])).

Definition foreign {A} (o : Outcome ExtExn A) : Outcome Exn A :=
  match o with
  | Returned a => Returned a
  | Raised e => Raised (Foreign e)
  end.

(** A call to a collaborator: recorded, then answered by the oracle. *)
Definition collaborate {A} (e : Event) (oracle : Env → Outcome ExtExn A * Env) : M A :=
  _ ← emit e;
  ((λ st, let '(o, env') := oracle (s_env st) in
          (foreign o, mkStore (s_self st) (s_rng st) env' (s_trace st))) : M A).

Definition json_loads (s : string) : M JSON :=
  match json_decoder s with
  | Some d => mret d
  | None => raise JSONDecodeError
  end.

Definition generate_auth_headers (customer_id secret_key resource method : string)
    (fields : option (gmap string string)) : M (gmap string string) :=
  collaborate (CallGenerateAuthHeaders customer_id secret_key resource method fields)
              (auth_headers customer_id secret_key resource method fields).

(** A call into [requests]: recorded, answered by the oracle, and the
    dictionary behind [self._proxy] left as the library leaves it. *)
Definition request (r : Request) : M HttpResponse :=
  _ ← emit (CallRequests r);
  ((λ st, let '(o, env') := http r (s_env st) in
          (foreign o,
           mkStore (share_proxies r (proxies_left r (s_env st)) (s_self st))
                   (s_rng st) env' (s_trace st))) : M HttpResponse).

(** [requests.get(url=, params=, headers=, proxies=)], where [proxies] is
    the object held by [self._proxy]. *)
Definition requests_get (url : string) (params headers : gmap string string)
    (proxies : option (gmap string string)) : M HttpResponse :=
  request (mkRequest GET url (Some params) None headers proxies).

(** [requests.post(url=, data=, headers=, proxies=)], likewise. *)
Definition requests_post (url : string) (data headers : gmap string string)
    (proxies : option (gmap string string)) : M HttpResponse :=
  request (mkRequest POST url None (Some data) headers proxies).

(** [rng.choice(seq)]: [seq[self._randbelow(len(seq))]], raising
    [IndexError] on an empty sequence. *)
Definition rng_choice (seq : string) : M ascii :=
  λ st,
    match seq with
    | EmptyString => (Raised IndexError, st)
    | String _ _ =>
        let '(i, g) := _randbelow (String.length seq) (s_rng st) in
        match String.get i seq with
        | Some c => (Returned c, mkStore (s_self st) g (s_env st) (s_trace st))
        | None => (Raised IndexError, mkStore (s_self st) g (s_env st) (s_trace st))
        end
    end.

(** [str.join] over the generator [rng.choice('0123456789') for _ in
    range(n)], which makes one draw per element. *)
Fixpoint join_choices (count : nat) : M string :=
  match count with
  | O => mret ""
  | S count' =>
      c ← rng_choice "0123456789";
      s ← join_choices count';
      mret (String c s)
  end.

(** [random_with_n_digits(n)]; [range(n)] is empty for [n <= 0]. *)
Definition random_with_n_digits (n : Z) : M string :=
  _ ← emit (CallRandomWithNDigits n);
  join_choices (Z.to_nat n).

(** [ServiceBase.__init__(api_host, customer_id, secret_key, ssl=True,
    proxy_host=None)] *)
Definition ServiceBase_init (api_host customer_id secret_key : string) (ssl : bool)
    (proxy_host : option string) : ServiceBase :=
  let http_root := if ssl then "https" else "http" in
  {| _customer_id := customer_id;
     _secret_key := secret_key;
     _api_host := api_host;
     _proxy :=
       match proxy_host with
       | Some host =>
           if truthy proxy_host
           then Some {[ http_root := http_root +:+ "://" +:+ host ]}
           else None
       | None => None
       end;
     _url := http_root +:+ "://" +:+ api_host |}.

(** [ServiceBase._validate_response(response)] *)
Definition _validate_response (response : HttpResponse) : M JSON :=
  resp_obj ← json_loads (text response);
  if negb (status_code response =? codes_ok) then
    if status_code response =? codes_unauthorized then
      raise (AuthorizationError resp_obj response)
    else
      raise (TelesignError resp_obj response)
  else
    mret resp_obj.

(** *** class PhoneId(ServiceBase) *)

(** [PhoneId.standard(phone_number, use_case_code=None, extra=None)] *)
Definition PhoneId_standard (phone_number : string) (use_case_code : option string)
    (extra : option (gmap string string)) : M Response :=
  let resource := "/v1/phoneid/standard/" +:+ phone_number in
  let method := "GET" in
  let fields : gmap string string := ∅ in
  let fields := if truthy use_case_code then setitem "ucid" use_case_code fields else fields in
  let fields := match extra with Some e => update fields e | None => fields end in
  customer_id ← getattr _customer_id;
  secret_key ← getattr _secret_key;
  headers ← generate_auth_headers customer_id secret_key resource method None;
  url ← getattr _url;
  proxy ← getattr _proxy;
  req ← requests_get (url +:+ resource) fields headers proxy;
  resp_obj ← _validate_response req;
  mret (Response_init resp_obj req None).

(** [PhoneId.score(phone_number, use_case_code, extra=None)] *)
Definition PhoneId_score (phone_number use_case_code : string)
    (extra : option (gmap string string)) : M Response :=
  let resource := "/v1/phoneid/score/" +:+ phone_number in
  let method := "GET" in
  let fields : gmap string string := {[ "ucid" := use_case_code ]} in
  let fields := match extra with Some e => update fields e | None => fields end in
  customer_id ← getattr _customer_id;
  secret_key ← getattr _secret_key;
  headers ← generate_auth_headers customer_id secret_key resource method None;
  url ← getattr _url;
  proxy ← getattr _proxy;
  req ← requests_get (url +:+ resource) fields headers proxy;
  resp_obj ← _validate_response req;
  mret (Response_init resp_obj req None).

(** [PhoneId.contact(phone_number, use_case_code, extra=None)] *)
Definition PhoneId_contact (phone_number use_case_code : string)
    (extra : option (gmap string string)) : M Response :=
  let resource := "/v1/phoneid/contact/" +:+ phone_number in
  let method := "GET" in
  let fields : gmap string string := {[ "ucid" := use_case_code ]} in
  let fields := match extra with Some e => update fields e | None => fields end in
  customer_id ← getattr _customer_id;
  secret_key ← getattr _secret_key;
  headers ← generate_auth_headers customer_id secret_key resource method None;
  url ← getattr _url;
  proxy ← getattr _proxy;
  req ← requests_get (url +:+ resource) fields headers proxy;
  resp_obj ← _validate_response req;
  mret (Response_init resp_obj req None).

(** [PhoneId.live(phone_number, use_case_code, extra=None)] *)
Definition PhoneId_live (phone_number use_case_code : string)
    (extra : option (gmap string string)) : M Response :=
  let resource := "/v1/phoneid/live/" +:+ phone_number in
  let method := "GET" in
  let fields : gmap string string := {[ "ucid" := use_case_code ]} in
  let fields := match extra with Some e => update fields e | None => fields end in
  customer_id ← getattr _customer_id;
  secret_key ← getattr _secret_key;
  headers ← generate_auth_headers customer_id secret_key resource method None;
  url ← getattr _url;
  proxy ← getattr _proxy;
  req ← requests_get (url +:+ resource) fields headers proxy;
  resp_obj ← _validate_response req;
  mret (Response_init resp_obj req None).

(** *** class Verify(ServiceBase) *)

(** [Verify.sms(phone_number, verify_code=None, language="en",
    template="", use_case_code=None, originating_ip=None, extra=None)] *)
Definition Verify_sms (phone_number : string) (verify_code : option string)
    (language template : string) (use_case_code originating_ip : option string)
    (extra : option (gmap string string)) : M Response :=
  let resource := "/v1/verify/sms" in
  let method := "POST" in
  let fields : gmap string string :=
    <["phone_number" := phone_number]>
      (<["language" := language]> (<["template" := template]> ∅)) in
  let fields :=
    if truthy verify_code then setitem "verify_code" verify_code fields else fields in
  let fields :=
    if truthy use_case_code then setitem "ucid" use_case_code fields else fields in
  let fields :=
    if is_not_None originating_ip then setitem "originating_ip" originating_ip fields
    else fields in
  let fields := match extra with Some e => update fields e | None => fields end in
  customer_id ← getattr _customer_id;
  secret_key ← getattr _secret_key;
  headers ← generate_auth_headers customer_id secret_key resource method (Some fields);
  url ← getattr _url;
  proxy ← getattr _proxy;
  req ← requests_post (url +:+ resource) fields headers proxy;
  resp_obj ← _validate_response req;
  mret (Response_init resp_obj req verify_code).

(** [Verify.call(phone_number, verify_code=None, use_case_code=None,
    verify_method="", language="en", extension_type="", redial="",
    originating_ip=None, pressx=None, extra=None)] *)
Definition Verify_call (phone_number : string) (verify_code use_case_code : option string)
    (verify_method language extension_type redial : string)
    (originating_ip pressx : option string)
    (extra : option (gmap string string)) : M Response :=
  let resource := "/v1/verify/call" in
  let method := "POST" in
  let fields : gmap string string :=
    <["phone_number" := phone_number]>
      (<["language" := language]>
        (<["verify_method" := verify_method]>
          (<["extension_type" := extension_type]> (<["redial" := redial]> ∅)))) in
  let fields :=
    if truthy verify_code then setitem "verify_code" verify_code fields else fields in
  let fields :=
    if truthy pressx then setitem "pressx" pressx fields else fields in
  let fields :=
    if truthy use_case_code then setitem "ucid" use_case_code fields else fields in
  let fields :=
    if is_not_None originating_ip then setitem "originating_ip" originating_ip fields
    else fields in
  let fields := match extra with Some e => update fields e | None => fields end in
  customer_id ← getattr _customer_id;
  secret_key ← getattr _secret_key;
  headers ← generate_auth_headers customer_id secret_key resource method (Some fields);
  url ← getattr _url;
  proxy ← getattr _proxy;
  req ← requests_post (url +:+ resource) fields headers proxy;
  resp_obj ← _validate_response req;
  mret (Response_init resp_obj req verify_code).

(** [Verify.status(ref_id, verify_code=None, extra=None)] *)
Definition Verify_status (ref_id : string) (verify_code : option string)
    (extra : option (gmap string string)) : M Response :=
  let resource := "/v1/verify/" +:+ ref_id in
  let method := "GET" in
  let fields : gmap string string := ∅ in
  let fields :=
    if is_not_None verify_code then setitem "verify_code" verify_code fields else fields in
  let fields := match extra with Some e => update fields e | None => fields end in
  customer_id ← getattr _customer_id;
  secret_key ← getattr _secret_key;
  headers ← generate_auth_headers customer_id secret_key resource method None;
  url ← getattr _url;
  proxy ← getattr _proxy;
  req ← requests_get (url +:+ resource) fields headers proxy;
  resp_obj ← _validate_response req;
  mret (Response_init resp_obj req None).

(** [PhoneId.__init__] and [Verify.__init__(customer_id, secret_key,
    ssl=True, api_host="rest.telesign.com", proxy_host=None)] pass their
    arguments on to [ServiceBase.__init__]. *)
Definition PhoneId_init (customer_id secret_key : string) (ssl : bool) (api_host : string)
    (proxy_host : option string) : ServiceBase :=
  ServiceBase_init api_host customer_id secret_key ssl proxy_host.

Definition Verify_init (customer_id secret_key : string) (ssl : bool) (api_host : string)
    (proxy_host : option string) : ServiceBase :=
  ServiceBase_init api_host customer_id secret_key ssl proxy_host.

(** *** The public operations as one type *)

(** A call of a public operation with its arguments. *)
Inductive Operation : Type :=
| OpStandard (phone_number : string) (use_case_code : option string)
    (extra : option (gmap string string))
| OpScore (phone_number use_case_code : string) (extra : option (gmap string string))
| OpContact (phone_number use_case_code : string) (extra : option (gmap string string))
| OpLive (phone_number use_case_code : string) (extra : option (gmap string string))
| OpSms (phone_number : string) (verify_code : option string) (language template : string)
    (use_case_code originating_ip : option string) (extra : option (gmap string string))
| OpCall (phone_number : string) (verify_code use_case_code : option string)
    (verify_method language extension_type redial : string)
    (originating_ip pressx : option string) (extra : option (gmap string string))
| OpStatus (ref_id : string) (verify_code : option string)
    (extra : option (gmap string string)).

(** Running an operation on the receiver held in the store.  [PhoneId]
    and [Verify] add no attribute to [ServiceBase], so one receiver type
    serves both. *)
Definition invoke (op : Operation) : M Response :=
  match op with
  | OpStandard p u e => PhoneId_standard p u e
  | OpScore p u e => PhoneId_score p u e
  | OpContact p u e => PhoneId_contact p u e
  | OpLive p u e => PhoneId_live p u e
  | OpSms p c l t u ip e => Verify_sms p c l t u ip e
  | OpCall p c u vm l et rd ip px e => Verify_call p c u vm l et rd ip px e
  | OpStatus r c e => Verify_status r c e
  end.

(** The common frame of the seven method bodies: sign, send, validate,
    wrap.  [signed] is what the method hands to header generation as
    [fields=], [sent] what it hands to [requests] as [params=] or
    [data=]. *)
Definition exchange (v : Verb) (resource : string) (signed : option (gmap string string))
    (sent : gmap string string) (code : option string) : M Response :=
  customer_id ← getattr _customer_id;
  secret_key ← getattr _secret_key;
  headers ← generate_auth_headers customer_id secret_key resource
              (match v with GET => "GET" | POST => "POST" end) signed;
  url ← getattr _url;
  proxy ← getattr _proxy;
  req ← match v with
        | GET => requests_get (url +:+ resource) sent headers proxy
        | POST => requests_post (url +:+ resource) sent headers proxy
        end;
  resp_obj ← _validate_response req;
  mret (Response_init resp_obj req code).

End Api.

Arguments JSONDecodeError {JSON ExtExn}.
Arguments IndexError {JSON ExtExn}.
Arguments Foreign {JSON ExtExn} e.
Arguments AuthorizationError {JSON ExtExn} data http_response.
Arguments TelesignError {JSON ExtExn} data http_response.

(** Reading an operation's arguments. *)
Definition is_query (op : Operation) : bool :=
  match op with
  | OpSms _ _ _ _ _ _ _ | OpCall _ _ _ _ _ _ _ _ _ _ => false
  | _ => true
  end.

(** The caller's string that ends up in the resource path, if any. *)
Definition path_argument (op : Operation) : string :=
  match op with
  | OpStandard p _ _ | OpScore p _ _ | OpContact p _ _ | OpLive p _ _ => p
  | OpStatus r _ _ => r
  | OpSms _ _ _ _ _ _ _ | OpCall _ _ _ _ _ _ _ _ _ _ => ""
  end.

Definition endpoint (op : Operation) : string :=
  match op with
  | OpStandard _ _ _ => "/v1/phoneid/standard/"
  | OpScore _ _ _ => "/v1/phoneid/score/"
  | OpContact _ _ _ => "/v1/phoneid/contact/"
  | OpLive _ _ _ => "/v1/phoneid/live/"
  | OpSms _ _ _ _ _ _ _ => "/v1/verify/sms"
  | OpCall _ _ _ _ _ _ _ _ _ _ => "/v1/verify/call"
  | OpStatus _ _ _ => "/v1/verify/"
  end.

Definition extra_of (op : Operation) : option (gmap string string) :=
  match op with
  | OpStandard _ _ e | OpScore _ _ e | OpContact _ _ e | OpLive _ _ e
  | OpSms _ _ _ _ _ _ e | OpCall _ _ _ _ _ _ _ _ _ e | OpStatus _ _ e => e
  end.

(** The [verify_code] an operation hands to [Response(...)]; the query
    operations leave it to its default. *)
Definition kept_code (op : Operation) : option string :=
  match op with
  | OpSms _ c _ _ _ _ _ | OpCall _ c _ _ _ _ _ _ _ _ => c
  | _ => None
  end.

Definition method_name (v : Verb) : string :=
  match v with
  | GET => "GET"
  | POST => "POST"
  end.

(** The request made by [requests.get(url, params=...)] or
    [requests.post(url, data=...)]. *)
Definition request_of (v : Verb) (url : string) (sent headers : gmap string string)
    (proxies : option (gmap string string)) : Request :=
  match v with
  | GET => mkRequest GET url (Some sent) None headers proxies
  | POST => mkRequest POST url None (Some sent) headers proxies
  end.

(** The fields a request carries: its URL parameters or its body. *)
Definition payload (r : Request) : option (gmap string string) :=
  match req_verb r with
  | GET => req_params r
  | POST => req_data r
  end.

(** ** Strings *)

Definition newline : ascii := "010"%char.

(** [s.split(sep)] for a one-character separator. *)
Fixpoint split (sep : ascii) (s : string) : list string :=
  match s with
  | EmptyString => [""]
  | String c rest =>
      if Ascii.eqb c sep then "" :: split sep rest
      else match split sep rest with
           | seg :: segs => String c seg :: segs
           | [] => [String c ""]
           end
  end.

(** [c in s] *)
Fixpoint contains (c : ascii) (s : string) : bool :=
  match s with
  | EmptyString => false
  | String d rest => Ascii.eqb d c || contains c rest
  end.

(** [s.startswith(c)] and [s.endswith(c)] for a single character. *)
Definition startswith (c : ascii) (s : string) : bool :=
  match s with
  | String d _ => Ascii.eqb d c
  | EmptyString => false
  end.

Fixpoint endswith (c : ascii) (s : string) : bool :=
  match s with
  | EmptyString => false
  | String d EmptyString => Ascii.eqb d c
  | String _ rest => endswith c rest
  end.

(** A URL carries a query string from its first question mark on. *)
Definition has_query (path : string) : bool := contains "?" path.

Definition is_decimal_digit (c : ascii) : bool :=
  let n := N_of_ascii c in ((48 <=? n) && (n <=? 57))%N.

Fixpoint all_chars (p : ascii → bool) (s : string) : bool :=
  match s with
  | EmptyString => true
  | String c rest => p c && all_chars p rest
  end.

(** ** Request signing (telesign.auth) *)
Module Auth.

(** Modelled from the spec: [telesign/auth.py], which builds the string to
    sign inside [generate_auth_headers], is not among the sources.  Spec
    4.2 gives the builder as a concatenation in the order method, content
    MD5, content type, timestamp, nonce header line, resource path, with a
    newline between consecutive fields. *)
Definition build_canonical_string
    (method resource_path content_type content_md5 timestamp nonce : string) : string :=
  method +:+ String newline
    (content_md5 +:+ String newline
      (content_type +:+ String newline
        (timestamp +:+ String newline
          ("x-ts-nonce:" +:+ nonce +:+ String newline resource_path)))).

(** Modelled from the spec: the content fields of a request (spec 4.2).
    With a body they are its content type and the base64 MD5 digest of the
    bytes sent, the digest function being a parameter; without a body both
    are empty. *)
Definition content_fields (md5_base64 : string → string) (body : option (string * string))
    : string * string :=
  match body with
  | Some (content_type, bytes) => (content_type, md5_base64 bytes)
  | None => ("", "")
  end.

(** Modelled from the spec: the string that is signed for a request. *)
Definition canonical_string (md5_base64 : string → string)
    (method resource_path : string) (body : option (string * string))
    (timestamp nonce : string) : string :=
  let '(content_type, content_md5) := content_fields md5_base64 body in
  build_canonical_string method resource_path content_type content_md5 timestamp nonce.

(** Modelled from the spec: the methods of a SignedRequestContext (spec 3). *)
Definition valid_method (method : string) : bool :=
  bool_decide (method ∈ ["GET"; "POST"; "PUT"; "DELETE"]).

(** Modelled from the spec: a resource path has a leading slash and no
    query string (spec 4.2, 6); like every field of the canonical string
    it must fit on one line. *)
Definition valid_resource_path (path : string) : bool :=
  startswith "/" path && negb (has_query path) && negb (contains newline path).

(** Modelled from the spec: timestamp and nonce are single-line tokens
    (spec 6). *)
Definition valid_token (s : string) : bool := negb (contains newline s).

End Auth.

(** ** A scripted outside world

    Collaborators for the closed examples: header generation answers with
    a fixed header set, and the network serves the responses of a script
    in order, refusing the connection once the script is exhausted. *)
Module Scenario.

Definition World : Type := list HttpResponse.

Definition signed_headers (customer_id : string) : gmap string string :=
  <["Authorization" := "TSA " +:+ customer_id +:+ ":c2lnbmF0dXJl"]>
    (<["x-ts-date" := "T1"]> (<["x-ts-nonce" := "n1"]> ∅)).

Definition auth (customer_id secret_key resource method : string)
    (fields : option (gmap string string)) (w : World)
    : Outcome string (gmap string string) * World :=
  (Returned (signed_headers customer_id), w).

Definition http (r : Request) (w : World) : Outcome string HttpResponse * World :=
  match w with
  | response :: w' => (Returned response, w')
  | [] => (Raised "ConnectionError", w)
  end.

(** [PhoneId("CUST1", "dGVzdGtleQ==")] and [Verify("CUST1", "dGVzdGtleQ==")]
    set the same attributes. *)
Definition client : ServiceBase :=
  ServiceBase_init "rest.telesign.com" "CUST1" "dGVzdGtleQ==" true None.

(** No proxy is configured in the environment: [requests] leaves the
    [proxies] dictionary as it found it. *)
Definition proxies_left (r : Request) (w : World) : gmap string string :=
  default ∅ (req_proxies r).

Definition rng : SystemRandom := mkSystemRandom (λ i, 7 * i + 3)%nat 0.

Definition store (w : World) : Store := mkStore client rng w [].

(** The calls made in the examples. *)
Definition standard_call : Operation :=
  OpStandard "13105551212" (Some "ATCK") None.

Definition standard_query_call : Operation :=
  OpStandard "13105551212?x=1" None None.

Definition standard_extra_call : Operation :=
  OpStandard "13105551212" (Some "BACS") (Some {[ "ucid" := "LEAD" ]}).

Definition sms_extra_call : Operation :=
  OpSms "13105551212" (Some "12345") "en" "" (Some "ATCK") None
        (Some {[ "phone_number" := "13107409700" ]}).

(** A JSON string literal: the text between double quotes (code 34). *)
Definition quoted (s : string) : string :=
  String "034" s +:+ String "034" "".

Definition ok_json : HttpResponse :=
  mkHttpResponse ∅ 200
    ("{" +:+ quoted "reference_id" +:+ ": " +:+ quoted "ABC" +:+ ", " +:+
     quoted "status" +:+ ": {" +:+ quoted "code" +:+ ": 290}}").

Definition unauthorized_json : HttpResponse :=
  mkHttpResponse ∅ 401
    ("{" +:+ quoted "errors" +:+ ": [{" +:+ quoted "code" +:+ ": -30006, " +:+
     quoted "description" +:+ ": " +:+ quoted "Invalid Signature." +:+ "}]}").

Definition unavailable_json : HttpResponse :=
  mkHttpResponse ∅ 503 ("{" +:+ quoted "errors" +:+ ": []}").

Definition unauthorized_html : HttpResponse :=
  mkHttpResponse ∅ 401 "<html><body>401 Unauthorized</body></html>".

Definition ok_html : HttpResponse :=
  mkHttpResponse ∅ 200 "<html><body>It works</body></html>".

End Scenario.

(** ** Reading an operation further *)

Definition verb_of (op : Operation) : Verb :=
  if is_query op then GET else POST.

(** The resource path of an operation: its endpoint, completed by the
    caller's string. *)
Definition resource_of (op : Operation) : string :=
  endpoint op +:+ path_argument op.

(** The dictionary [fields] of a method body as it stands after the last
    assignment to it, the update by [extra]; the same statements as in the
    seven methods above, without the calls that follow them. *)
Definition fields_of (op : Operation) : gmap string string :=
  match op with
  | OpStandard _ use_case_code extra =>
      let fields : gmap string string := ∅ in
      let fields :=
        if truthy use_case_code then setitem "ucid" use_case_code fields else fields in
      match extra with Some e => update fields e | None => fields end
  | OpScore _ use_case_code extra
  | OpContact _ use_case_code extra
  | OpLive _ use_case_code extra =>
      let fields : gmap string string := {[ "ucid" := use_case_code ]} in
      match extra with Some e => update fields e | None => fields end
  | OpSms phone_number verify_code language template use_case_code originating_ip extra =>
      let fields : gmap string string :=
        <["phone_number" := phone_number]>
          (<["language" := language]> (<["template" := template]> ∅)) in
      let fields :=
        if truthy verify_code then setitem "verify_code" verify_code fields else fields in
      let fields :=
        if truthy use_case_code then setitem "ucid" use_case_code fields else fields in
      let fields :=
        if is_not_None originating_ip then setitem "originating_ip" originating_ip fields
        else fields in
      match extra with Some e => update fields e | None => fields end
  | OpCall phone_number verify_code use_case_code verify_method language extension_type
      redial originating_ip pressx extra =>
      let fields : gmap string string :=
        <["phone_number" := phone_number]>
          (<["language" := language]>
            (<["verify_method" := verify_method]>
              (<["extension_type" := extension_type]> (<["redial" := redial]> ∅)))) in
      let fields :=
        if truthy verify_code then setitem "verify_code" verify_code fields else fields in
      let fields :=
        if truthy pressx then setitem "pressx" pressx fields else fields in
      let fields :=
        if truthy use_case_code then setitem "ucid" use_case_code fields else fields in
      let fields :=
        if is_not_None originating_ip then setitem "originating_ip" originating_ip fields
        else fields in
      match extra with Some e => update fields e | None => fields end
  | OpStatus _ verify_code extra =>
      let fields : gmap string string := ∅ in
      let fields :=
        if is_not_None verify_code then setitem "verify_code" verify_code fields
        else fields in
      match extra with Some e => update fields e | None => fields end
  end.

(** What a method passes as [fields=] to header generation: nothing in the
    query operations, [fields] in [Verify.sms] and [Verify.call]. *)
Definition signed_of (op : Operation) : option (gmap string string) :=
  if is_query op then None else Some (fields_of op).

(** The header-generation call an operation makes on the client [self],
    the collaborator's answer to it in the world [env], and the request
    the operation makes once it holds the headers [h]. *)
Definition signing_call (op : Operation) (self : ServiceBase) : Event :=
  CallGenerateAuthHeaders (_customer_id self) (_secret_key self)
    (resource_of op) (method_name (verb_of op)) (signed_of op).

Definition signing_answer {ExtExn Env : Type}
    (auth_headers :
       string → string → string → string → option (gmap string string) →
       Env → Outcome ExtExn (gmap string string) * Env)
    (op : Operation) (self : ServiceBase) (env : Env)
    : Outcome ExtExn (gmap string string) * Env :=
  auth_headers (_customer_id self) (_secret_key self)
    (resource_of op) (method_name (verb_of op)) (signed_of op) env.

Definition request_with (op : Operation) (self : ServiceBase)
    (h : gmap string string) : Request :=
  request_of (verb_of op) (_url self +:+ resource_of op) (fields_of op) h (_proxy self).

(** The same call with another [extra] argument. *)
Definition with_extra (extra : option (gmap string string)) (op : Operation) : Operation :=
  match op with
  | OpStandard p u _ => OpStandard p u extra
  | OpScore p u _ => OpScore p u extra
  | OpContact p u _ => OpContact p u extra
  | OpLive p u _ => OpLive p u extra
  | OpSms p c l t u ip _ => OpSms p c l t u ip extra
  | OpCall p c u vm l et rd ip px _ => OpCall p c u vm l et rd ip px extra
  | OpStatus r c _ => OpStatus r c extra
  end.

Definition option_list (o : option string) : list string :=
  match o with
  | Some s => [s]
  | None => []
  end.

(** The values the string parameters of a method have during the call,
    [extra] apart, whether the caller passed them or they were left to
    their defaults. *)
Definition parameter_values (op : Operation) : list string :=
  match op with
  | OpStandard p u _ => p :: option_list u
  | OpScore p u _ | OpContact p u _ | OpLive p u _ => [p; u]
  | OpSms p c l t u ip _ => [p; l; t] ++ option_list c ++ option_list u ++ option_list ip
  | OpCall p c u vm l et rd ip px _ =>
      [p; vm; l; et; rd] ++ option_list c ++ option_list u ++ option_list ip
        ++ option_list px
  | OpStatus r c _ => r :: option_list c
  end.

(** A call as the caller writes it.  The string parameters that have a
    string default in the signature ([language], [template],
    [verify_method], [extension_type], [redial]) may be omitted, which is
    [None] here; for the parameters that default to [None], omitting them
    and passing [None] are the same call. *)
Inductive CallSite : Type :=
| SiteStandard (phone_number : string) (use_case_code : option string)
    (extra : option (gmap string string))
| SiteScore (phone_number use_case_code : string) (extra : option (gmap string string))
| SiteContact (phone_number use_case_code : string) (extra : option (gmap string string))
| SiteLive (phone_number use_case_code : string) (extra : option (gmap string string))
| SiteSms (phone_number : string) (verify_code : option string)
    (language template : option string)
    (use_case_code originating_ip : option string) (extra : option (gmap string string))
| SiteCall (phone_number : string) (verify_code use_case_code : option string)
    (verify_method language extension_type redial : option string)
    (originating_ip pressx : option string) (extra : option (gmap string string))
| SiteStatus (ref_id : string) (verify_code : option string)
    (extra : option (gmap string string)).

(** Binding the parameters: an omitted parameter takes the default of the
    signature, [language="en"] and the empty string for [template],
    [verify_method], [extension_type] and [redial]. *)
Definition bind_defaults (site : CallSite) : Operation :=
  match site with
  | SiteStandard p u e => OpStandard p u e
  | SiteScore p u e => OpScore p u e
  | SiteContact p u e => OpContact p u e
  | SiteLive p u e => OpLive p u e
  | SiteSms p c l t u ip e => OpSms p c (default "en" l) (default "" t) u ip e
  | SiteCall p c u vm l et rd ip px e =>
      OpCall p c u (default "" vm) (default "en" l) (default "" et) (default "" rd) ip px e
  | SiteStatus r c e => OpStatus r c e
  end.

(** The strings the caller passes, [extra] apart. *)
Definition passed_values (site : CallSite) : list string :=
  match site with
  | SiteStandard p u _ => p :: option_list u
  | SiteScore p u _ | SiteContact p u _ | SiteLive p u _ => [p; u]
  | SiteSms p c l t u ip _ =>
      p :: option_list c ++ option_list l ++ option_list t ++ option_list u
        ++ option_list ip
  | SiteCall p c u vm l et rd ip px _ =>
      p :: option_list c ++ option_list u ++ option_list vm ++ option_list l
        ++ option_list et ++ option_list rd ++ option_list ip ++ option_list px
  | SiteStatus r c _ => r :: option_list c
  end.

(** The default of a string parameter, when the caller omitted it. *)
Definition default_if_omitted (d : string) (o : option string) : list string :=
  match o with
  | Some _ => []
  | None => [d]
  end.

(** The defaults that take the place of omitted parameters. *)
Definition default_values (site : CallSite) : list string :=
  match site with
  | SiteSms _ _ l t _ _ _ => default_if_omitted "en" l ++ default_if_omitted "" t
  | SiteCall _ _ _ vm l et rd _ _ _ =>
      default_if_omitted "" vm ++ default_if_omitted "en" l ++ default_if_omitted "" et
        ++ default_if_omitted "" rd
  | _ => []
  end.

(** The keys a method writes into [fields] unconditionally. *)
Definition unconditional_keys (op : Operation) : list string :=
  match op with
  | OpStandard _ _ _ | OpStatus _ _ _ => []
  | OpScore _ _ _ | OpContact _ _ _ | OpLive _ _ _ => ["ucid"]
  | OpSms _ _ _ _ _ _ _ => ["phone_number"; "language"; "template"]
  | OpCall _ _ _ _ _ _ _ _ _ _ =>
      ["phone_number"; "language"; "verify_method"; "extension_type"; "redial"]
  end.

(** The digit [rng.choice('0123456789')] picks for a raw draw. *)
Definition digit_of_draw (draw : nat) : ascii :=
  ascii_of_nat (48 + draw mod 10).

(** The digits picked for [count] consecutive draws, the first at
    position [from] of the sequence. *)
Fixpoint code_of_draws (d : nat → nat) (from count : nat) : string :=
  match count with
  | O => ""
  | S count' => String (digit_of_draw (d from)) (code_of_draws d (S from) count')
  end.

(** ** Collaborators that fail *)
Module Outage.

(** Header generation that rejects the secret key. *)
Definition auth (customer_id secret_key resource method : string)
    (fields : option (gmap string string)) (w : Scenario.World)
    : Outcome string (gmap string string) * Scenario.World :=
  (Raised "binascii.Error: Incorrect padding", w).

(** A [Verify.status] call carrying a code. *)
Definition status_call : Operation :=
  OpStatus "ABCDEF0123456789" (Some "12345") None.

(** A [Verify.sms] call with an empty code. *)
Definition sms_empty_code_call : Operation :=
  OpSms "13105551212" (Some "") "en" "" None None None.



End Outage.

(** ** An environment with a proxy setting *)
Module Office.

(** The proxies [requests] reads from the environment, here from
    [https_proxy]. *)
Definition env_proxies : gmap string string :=
  {[ "https" := "http://proxy.example:3128" ]}.

(** [for k, v in env_proxies.items(): proxies.setdefault(k, v)]: a key
    the dictionary has keeps its value, a key it lacks is added. *)
Definition proxies_left (r : Request) (w : Scenario.World) : gmap string string :=
  default ∅ (req_proxies r) ∪ env_proxies.

End Office.

(** * Facts *)

Section ApiFacts.

Context {JSON ExtExn Env : Type}.
Variable json_decoder : string → option JSON.
Variable auth_headers :
  string → string → string → string → option (gmap string string) →
  Env → Outcome ExtExn (gmap string string) * Env.
Variable http : Request → Env → Outcome ExtExn HttpResponse * Env.
Variable proxies_left : Request → Env → gmap string string.

Local Abbreviation validate := (@_validate_response JSON ExtExn Env json_decoder).
Local Abbreviation run_op := (invoke json_decoder auth_headers http proxies_left).
Local Abbreviation run_exchange := (exchange json_decoder auth_headers http proxies_left).

(** *** Response validation *)

Lemma validate_run (response : HttpResponse) (st : Store (Env := Env)) :
  validate response st =
  (match json_decoder (text response) with
   | None => Raised JSONDecodeError
   | Some d =>
       if status_code response =? 200 then Returned d
       else if status_code response =? 401 then Raised (AuthorizationError d response)
       else Raised (TelesignError d response)
   end, st).
Proof.
  unfold _validate_response, json_loads, mbind, M_bind, mret, M_ret, raise.
  unfold codes_ok, codes_unauthorized.
  destruct (json_decoder (text response)) as [d|]; [|reflexivity].
  destruct (status_code response =? 200); simpl; [reflexivity|].
  destruct (status_code response =? 401); reflexivity.
Qed.

(** C1 (as amended): for every response whose body decodes as JSON to [d],
    [_validate_response] raises [AuthorizationError] exactly when the
    status code is 401, raises [TelesignError] for every other status code
    different from 200, and for status 200 raises nothing and returns [d],
    the decoded body. *)
Theorem validate_classifies_decoded_response
    (response : HttpResponse) (d : JSON) (st : Store (Env := Env)) :
  json_decoder (text response) = Some d →
  (status_code response = 401 →
     (validate response st).1 = Raised (AuthorizationError d response)) ∧
  ((∃ d' r', (validate response st).1 = Raised (AuthorizationError d' r')) →
     status_code response = 401) ∧
  (status_code response ≠ 401 → status_code response ≠ 200 →
     (validate response st).1 = Raised (TelesignError d response)) ∧
  (status_code response = 200 → (validate response st).1 = Returned d).
Proof.
  intros Hd. rewrite validate_run, Hd. cbn [fst].
  destruct (Z.eqb_spec (status_code response) 200) as [H200|H200];
    [|destruct (Z.eqb_spec (status_code response) 401) as [H401|H401]];
    repeat split; try (intros (d' & r' & H)); intros; first [congruence | lia].
Qed.

(** C9: the body is decoded before the status code is looked at.  A
    response whose body is not valid JSON makes [_validate_response] raise
    the decoder's error whatever the status code, and leaves everything
    else as it was; so whenever [AuthorizationError] or [TelesignError] is
    raised, the body was valid JSON, and the exception carries its decoded
    value. *)
Theorem validate_decodes_before_status
    (response : HttpResponse) (st : Store (Env := Env)) :
  (json_decoder (text response) = None →
     validate response st = (Raised JSONDecodeError, st)) ∧
  (∀ d r, (validate response st).1 = Raised (AuthorizationError d r) ∨
          (validate response st).1 = Raised (TelesignError d r) →
          json_decoder (text response) = Some d).
Proof.
  rewrite validate_run. split.
  - intros ->. reflexivity.
  - intros d r. cbn [fst].
    destruct (json_decoder (text response)) as [d0|].
    + destruct (status_code response =? 200); [intros [H|H]; discriminate|].
      destruct (status_code response =? 401); intros [H|H]; congruence.
    + intros [H|H]; discriminate.
Qed.

(** *** The frame shared by the operations *)

(** Running the frame: one header generation, then, if that returned, one
    request, then, if that returned, validation of the response. *)
Lemma exchange_run (v : Verb) (resource : string) (signed : option (gmap string string))
    (sent : gmap string string) (code : option string) (st : Store) :
  run_exchange v resource signed sent code st =
  let self := s_self st in
  let call := CallGenerateAuthHeaders (_customer_id self) (_secret_key self) resource
                (method_name v) signed in
  match auth_headers (_customer_id self) (_secret_key self) resource (method_name v) signed
          (s_env st) with
  | (Raised e, env1) =>
      (Raised (Foreign e), mkStore self (s_rng st) env1 (s_trace st ++ [call]))
  | (Returned h, env1) =>
      let r := request_of v (_url self +:+ resource) sent h (_proxy self) in
      let self' := share_proxies r (proxies_left r env1) self in
      match http r env1 with
      | (Raised e, env2) =>
          (Raised (Foreign e),
           mkStore self' (s_rng st) env2 ((s_trace st ++ [call]) ++ [CallRequests r]))
      | (Returned response, env2) =>
          (match json_decoder (text response) with
           | None => Raised JSONDecodeError
           | Some d =>
               if status_code response =? 200 then Returned (Response_init d response code)
               else if status_code response =? 401
                    then Raised (AuthorizationError d response)
                    else Raised (TelesignError d response)
           end,
           mkStore self' (s_rng st) env2 ((s_trace st ++ [call]) ++ [CallRequests r]))
      end
  end.
Proof.
  unfold exchange, generate_auth_headers, requests_get, requests_post, request, collaborate,
    getattr, emit, mbind, M_bind, mret, M_ret.
  cbn [s_self s_rng s_env s_trace].
  destruct v; cbn [method_name request_of];
    destruct (auth_headers _ _ _ _ _ (s_env st)) as [[h|e] env1];
    cbn [foreign s_self s_rng s_env s_trace]; try reflexivity;
    destruct (http _ env1) as [[response|e] env2];
    cbn [foreign s_self s_rng s_env s_trace]; try reflexivity;
    rewrite validate_run;
    destruct (json_decoder (text response)) as [d|]; try reflexivity;
    destruct (status_code response =? 200); try reflexivity;
    destruct (status_code response =? 401); reflexivity.
Qed.

(** Each operation is the frame, run on the path, the fields and the code
    of that operation; what it sends ends with the update by [extra]. *)
Lemma invoke_exchange (op : Operation) :
  ∃ sent,
    run_op op =
      run_exchange (if is_query op then GET else POST) (endpoint op +:+ path_argument op)
        (if is_query op then None else Some sent) sent (kept_code op) ∧
    ∀ ex, extra_of op = Some ex → ∃ base, sent = update base ex.
Proof.
  destruct op; cbn [is_query endpoint path_argument kept_code extra_of invoke];
    (eexists; split; [reflexivity|]); intros ex [= ->]; eexists; reflexivity.
Qed.

(** The boundary calls of an operation: header generation for the
    operation's path and method, then, if it returned, one request with
    the headers it returned. *)
Lemma invoke_trace (op : Operation) (st : Store) :
  ∃ sent tail,
    (∀ ex, extra_of op = Some ex → ∃ base, sent = update base ex) ∧
    s_trace (run_op op st).2 =
      s_trace st ++
      CallGenerateAuthHeaders (_customer_id (s_self st)) (_secret_key (s_self st))
        (endpoint op +:+ path_argument op) (method_name (if is_query op then GET else POST))
        (if is_query op then None else Some sent) :: tail ∧
    match auth_headers (_customer_id (s_self st)) (_secret_key (s_self st))
            (endpoint op +:+ path_argument op)
            (method_name (if is_query op then GET else POST))
            (if is_query op then None else Some sent) (s_env st) with
    | (Returned h, _) =>
        tail = [CallRequests
                  (request_of (if is_query op then GET else POST)
                     (_url (s_self st) +:+ (endpoint op +:+ path_argument op))
                     sent h (_proxy (s_self st)))]
    | (Raised _, _) => tail = []
    end.
Proof.
  destruct (invoke_exchange op) as (sent & Heq & Hex).
  exists sent. rewrite Heq, exchange_run. cbv zeta.
  destruct (auth_headers _ _ _ _ _ (s_env st)) as [[h|e] env1].
  - eexists. split; [exact Hex|].
    destruct (http _ env1) as [[response|e] env2]; cbn [snd s_trace];
      rewrite <- app_assoc; split; reflexivity.
  - exists []. split; [exact Hex|]. split; reflexivity.
Qed.

(** No operation draws from the module-level random source. *)
Lemma invoke_rng (op : Operation) (st : Store) :
  s_rng (run_op op st).2 = s_rng st.
Proof.
  destruct (invoke_exchange op) as (sent & Heq & _).
  rewrite Heq, exchange_run. cbv zeta.
  destruct (auth_headers _ _ _ _ _ (s_env st)) as [[h|e] env1]; [|reflexivity].
  destruct (http _ env1) as [[response|e] env2]; reflexivity.
Qed.



(** A response object returned by an operation carries the code the
    operation keeps. *)
Lemma invoke_returned (op : Operation) (st : Store) (r : Response) :
  (run_op op st).1 = Returned r → verify_code r = kept_code op.
Proof.
  destruct (invoke_exchange op) as (sent & Heq & _).
  rewrite Heq, exchange_run. cbv zeta.
  destruct (auth_headers _ _ _ _ _ (s_env st)) as [[h|e] env1]; [|discriminate].
  destruct (http _ env1) as [[response|e] env2]; [|discriminate].
  cbn [fst]. destruct (json_decoder (text response)) as [d|]; [|discriminate].
  destruct (status_code response =? 200); [intros [= <-]; reflexivity|].
  destruct (status_code response =? 401); discriminate.
Qed.

Lemma contains_app (c : ascii) (a b : string) :
  contains c (a +:+ b) = contains c a || contains c b.
Proof.
  induction a as [|d a IH]; simpl; [reflexivity|].
  rewrite IH. apply orb_assoc.
Qed.

(** *** The operations *)

(** C2: on every invocation of [Verify.sms] and of [Verify.call], the
    mapping handed to [generate_auth_headers] as [fields=] is the very
    mapping then sent as the request body ([data=]), and the request's
    headers are the ones [generate_auth_headers] returned.  (When header
    generation raises, nothing is sent.) *)
Theorem verify_signs_the_body_it_sends :
  (∀ phone_number verify_code language template use_case_code originating_ip extra
     (st : Store),
     ∃ fields tail,
       s_trace (Verify_sms json_decoder auth_headers http proxies_left phone_number verify_code language
                  template use_case_code originating_ip extra st).2 =
         s_trace st ++
         CallGenerateAuthHeaders (_customer_id (s_self st)) (_secret_key (s_self st))
           "/v1/verify/sms" "POST" (Some fields) :: tail ∧
       match auth_headers (_customer_id (s_self st)) (_secret_key (s_self st))
               "/v1/verify/sms" "POST" (Some fields) (s_env st) with
       | (Returned h, _) =>
           tail = [CallRequests
                     (mkRequest POST (_url (s_self st) +:+ "/v1/verify/sms") None
                        (Some fields) h (_proxy (s_self st)))]
       | (Raised _, _) => tail = []
       end) ∧
  (∀ phone_number verify_code use_case_code verify_method language extension_type redial
     originating_ip pressx extra (st : Store),
     ∃ fields tail,
       s_trace (Verify_call json_decoder auth_headers http proxies_left phone_number verify_code
                  use_case_code verify_method language extension_type redial originating_ip
                  pressx extra st).2 =
         s_trace st ++
         CallGenerateAuthHeaders (_customer_id (s_self st)) (_secret_key (s_self st))
           "/v1/verify/call" "POST" (Some fields) :: tail ∧
       match auth_headers (_customer_id (s_self st)) (_secret_key (s_self st))
               "/v1/verify/call" "POST" (Some fields) (s_env st) with
       | (Returned h, _) =>
           tail = [CallRequests
                     (mkRequest POST (_url (s_self st) +:+ "/v1/verify/call") None
                        (Some fields) h (_proxy (s_self st)))]
       | (Raised _, _) => tail = []
       end).
Proof.
  split.
  - intros p c l t u ip e st.
    destruct (invoke_trace (OpSms p c l t u ip e) st) as (sent & tail & _ & Htr & Hreq).
    exists sent, tail. split; [exact Htr | exact Hreq].
  - intros p c u vm l et rd ip px e st.
    destruct (invoke_trace (OpCall p c u vm l et rd ip px e) st)
      as (sent & tail & _ & Htr & Hreq).
    exists sent, tail. split; [exact Htr | exact Hreq].
Qed.

(** C6 (as amended): every query-style operation ([PhoneId.standard],
    [score], [contact], [live] and [Verify.status]) first calls
    [generate_auth_headers] with the method GET, without the query fields
    (no [fields=] argument), and with a resource path that is the
    endpoint's prefix followed by the caller's string: the path begins
    with a slash, and it contains a question mark exactly when the
    caller's string does. *)
Theorem query_operations_sign_the_bare_path (op : Operation) (st : Store) :
  is_query op = true →
  ∃ tail,
    s_trace (run_op op st).2 =
      s_trace st ++
      CallGenerateAuthHeaders (_customer_id (s_self st)) (_secret_key (s_self st))
        (endpoint op +:+ path_argument op) "GET" None :: tail ∧
    startswith "/" (endpoint op +:+ path_argument op) = true ∧
    has_query (endpoint op +:+ path_argument op) = has_query (path_argument op).
Proof.
  intros Hq.
  destruct (invoke_trace op st) as (sent & tail & _ & Htr & _).
  rewrite Hq in Htr. exists tail. split; [exact Htr|].
  unfold has_query. rewrite contains_app.
  destruct op; try discriminate Hq; split; reflexivity.
Qed.


(** C8: a response object returned by [Verify.sms] or [Verify.call]
    carries in [verify_code] the caller's [verify_code] argument ([None]
    when omitted); and no operation calls [random_with_n_digits] or draws
    from the module-level random source. *)
Theorem verify_code_is_the_callers :
  (∀ phone_number code language template use_case_code originating_ip extra
     (st : Store) (r : Response),
     (Verify_sms json_decoder auth_headers http proxies_left phone_number code language template
        use_case_code originating_ip extra st).1 = Returned r →
     verify_code r = code) ∧
  (∀ phone_number code use_case_code verify_method language extension_type redial
     originating_ip pressx extra (st : Store) (r : Response),
     (Verify_call json_decoder auth_headers http proxies_left phone_number code use_case_code
        verify_method language extension_type redial originating_ip pressx extra st).1
       = Returned r →
     verify_code r = code) ∧
  (∀ (op : Operation) (st : Store),
     s_rng (run_op op st).2 = s_rng st ∧
     ∃ calls, s_trace (run_op op st).2 = s_trace st ++ calls ∧
              forallb (λ e, negb (is_random_call e)) calls = true).
Proof.
  split; [|split].
  - intros p c l t u ip e st r H.
    exact (invoke_returned (OpSms p c l t u ip e) st r H).
  - intros p c u vm l et rd ip px e st r H.
    exact (invoke_returned (OpCall p c u vm l et rd ip px e) st r H).
  - intros op st. split; [apply invoke_rng|].
    destruct (invoke_trace op st) as (sent & tail & _ & Htr & Hreq).
    eexists. split; [exact Htr|].
    destruct (auth_headers _ _ _ _ _ (s_env st)) as [[h|e] env1]; subst tail; reflexivity.
Qed.

(** C10 (as amended): in every operation that accepts [extra], its entries
    are merged into the request fields last, so for every key of [extra]
    (in particular one the endpoint also sets, such as [ucid] or
    [phone_number]) the value sent is the one from [extra].  [Verify.sms]
    and [Verify.call] hand the same fields to header generation, so that
    value is also the one signed; the query-style operations hand no
    fields to header generation. *)
Theorem extra_is_merged_last (op : Operation) (st : Store)
    (ex : gmap string string) (k v : string) :
  extra_of op = Some ex →
  ex !! k = Some v →
  ∃ signed tail,
    s_trace (run_op op st).2 =
      s_trace st ++
      CallGenerateAuthHeaders (_customer_id (s_self st)) (_secret_key (s_self st))
        (endpoint op +:+ path_argument op) (method_name (if is_query op then GET else POST))
        signed :: tail ∧
    (∀ h env', auth_headers (_customer_id (s_self st)) (_secret_key (s_self st))
                 (endpoint op +:+ path_argument op)
                 (method_name (if is_query op then GET else POST)) signed (s_env st)
               = (Returned h, env') →
               ∃ r, tail = [CallRequests r] ∧ req_headers r = h) ∧
    (∀ r, CallRequests r ∈ tail → payload r ≫= (.!! k) = Some v) ∧
    (if is_query op then signed = None else signed ≫= (.!! k) = Some v).
Proof.
  intros Hex Hk.
  destruct (invoke_trace op st) as (sent & tail & Hup & Htr & Hreq).
  destruct (Hup ex Hex) as (base & ->).
  assert (Hsent : update base ex !! k = Some v).
  { unfold update. apply lookup_union_Some_l. exact Hk. }
  eexists _, tail. split; [exact Htr|].
  destruct (auth_headers _ _ _ _ _ (s_env st)) as [[h|e] env1]; subst tail.
  - split; [|split].
    + intros h' env' [= <- <-]. eexists. split; [reflexivity|].
      destruct (is_query op); reflexivity.
    + intros r Hr. apply list_elem_of_singleton in Hr. injection Hr as ->.
      destruct (is_query op); exact Hsent.
    + destruct (is_query op); [reflexivity | exact Hsent].
  - split; [|split].
    + intros h' env' [=].
    + intros r Hr. apply elem_of_nil in Hr. destruct Hr.
    + destruct (is_query op); [reflexivity | exact Hsent].
Qed.

(** *** The verification-code generator *)

Lemma digit_at (i : nat) :
  (i < 10)%nat → ∃ c, String.get i "0123456789" = Some c ∧ is_decimal_digit c = true.
Proof.
  intros Hi.
  do 10 (destruct i as [|i]; [eexists; split; reflexivity|]).
  lia.
Qed.

(** One [rng.choice('0123456789')]: a decimal digit, and one draw spent. *)
Lemma rng_choice_digit (st : Store (Env := Env)) :
  ∃ c, rng_choice (JSON := JSON) (ExtExn := ExtExn) "0123456789" st =
         (Returned c,
          mkStore (s_self st) (mkSystemRandom (draws (s_rng st)) (S (cursor (s_rng st))))
                  (s_env st) (s_trace st)) ∧
       is_decimal_digit c = true.
Proof.
  unfold rng_choice, _randbelow.
  change (String.length "0123456789") with 10%nat.
  destruct (digit_at (draws (s_rng st) (cursor (s_rng st)) mod 10)) as (c & Hc & Hd).
  { apply Nat.mod_upper_bound. discriminate. }
  exists c. rewrite Hc. split; [reflexivity | exact Hd].
Qed.

(** The generator's loop: [count] digits for [count] draws. *)
Lemma join_choices_run (count : nat) (st : Store (Env := Env)) :
  ∃ s, join_choices (JSON := JSON) (ExtExn := ExtExn) count st =
         (Returned s,
          mkStore (s_self st)
                  (mkSystemRandom (draws (s_rng st)) (count + cursor (s_rng st)))
                  (s_env st) (s_trace st)) ∧
       String.length s = count ∧
       all_chars is_decimal_digit s = true.
Proof.
  revert st. induction count as [|count IH]; intros st.
  - exists "". destruct st as [self [d c] env tr]. repeat split.
  - destruct (rng_choice_digit st) as (c & Hc & Hd).
    destruct (IH (mkStore (s_self st)
                    (mkSystemRandom (draws (s_rng st)) (S (cursor (s_rng st))))
                    (s_env st) (s_trace st))) as (s & Hs & Hlen & Hall).
    exists (String c s). cbn [join_choices].
    unfold mbind, M_bind at 1. rewrite Hc.
    unfold M_bind at 1. rewrite Hs. cbn.
    rewrite Hlen, Hd, Hall, Nat.add_succ_r. repeat split.
Qed.

(** C4: for every positive length and every sequence of draws of the random
    source, [random_with_n_digits] returns a string of exactly [n]
    characters, each of them a decimal digit. *)
Theorem random_with_n_digits_code (n : Z) (st : Store (Env := Env)) :
  0 < n →
  ∃ s, (random_with_n_digits (JSON := JSON) (ExtExn := ExtExn) n st).1 = Returned s ∧
       Z.of_nat (String.length s) = n ∧
       all_chars is_decimal_digit s = true.
Proof.
  intros Hn. unfold random_with_n_digits, emit, mbind, M_bind.
  destruct (join_choices_run (Z.to_nat n)
              (mkStore (s_self st) (s_rng st) (s_env st)
                       (s_trace st ++ [CallRandomWithNDigits n])))
    as (s & Hs & Hlen & Hall).
  exists s. rewrite Hs. cbn [fst]. repeat split; [lia | exact Hall].
Qed.

(** C5 (as amended): the generator signals no input error.  For every
    length less than or equal to zero it returns the empty string, without
    drawing from the random source, and it raises for no length at all. *)
Theorem random_with_n_digits_never_raises (n : Z) (st : Store (Env := Env)) :
  n ≤ 0 →
  random_with_n_digits (JSON := JSON) (ExtExn := ExtExn) n st =
    (Returned "",
     mkStore (s_self st) (s_rng st) (s_env st) (s_trace st ++ [CallRandomWithNDigits n])) ∧
  ∀ m, is_raised (random_with_n_digits (JSON := JSON) (ExtExn := ExtExn) m st).1 = false.
Proof.
  intros Hn. split.
  - unfold random_with_n_digits, emit, mbind, M_bind.
    replace (Z.to_nat n) with 0%nat by lia. reflexivity.
  - intros m. unfold random_with_n_digits, emit, mbind, M_bind.
    destruct (join_choices_run (Z.to_nat m)
                (mkStore (s_self st) (s_rng st) (s_env st)
                         (s_trace st ++ [CallRandomWithNDigits m])))
      as (s & Hs & _). rewrite Hs. reflexivity.
Qed.

End ApiFacts.

(** *** The canonical string *)

Section Canonical.

Variable sep : ascii.

Lemma split_segment (a : string) :
  contains sep a = false → split sep a = [a].
Proof.
  induction a as [|c a IH]; simpl; [reflexivity|].
  intros H. apply orb_false_elim in H as [Hc Ha].
  rewrite Hc, (IH Ha). reflexivity.
Qed.

Lemma split_app (a b : string) :
  contains sep a = false → split sep (a +:+ String sep b) = a :: split sep b.
Proof.
  induction a as [|c a IH]; simpl.
  - intros _. rewrite Ascii.eqb_refl. reflexivity.
  - intros H. apply orb_false_elim in H as [Hc Ha].
    rewrite Hc, (IH Ha). reflexivity.
Qed.

Lemma endswith_contains (a : string) :
  endswith sep a = true → contains sep a = true.
Proof.
  induction a as [|c a IH]; simpl; [discriminate|].
  destruct a as [|d a].
  - intros ->. reflexivity.
  - intros H. rewrite (IH H). apply orb_true_r.
Qed.

Lemma endswith_app (a : string) (c : ascii) (b : string) :
  endswith sep (a +:+ String c b) = endswith sep (String c b).
Proof.
  induction a as [|d a IH]; [reflexivity|].
  change (String d a +:+ String c b) with (String d (a +:+ String c b)).
  rewrite <- IH.
  destruct a; reflexivity.
Qed.

End Canonical.

Lemma valid_method_one_line (method : string) :
  Auth.valid_method method = true → contains newline method = false.
Proof.
  unfold Auth.valid_method. intros H. apply bool_decide_eq_true in H.
  repeat (apply elem_of_cons in H as [->|H]; [reflexivity|]).
  apply elem_of_nil in H. destruct H.
Qed.

(** C3: for every valid method, resource path, timestamp and nonce of a
    request without a body, the canonical string is
    METHOD, newline, newline, newline, TIMESTAMP, newline, the nonce header
    line, newline, RESOURCE_PATH: split at newlines it has exactly six
    segments, the second and third of them empty, and it does not end in
    a newline. *)
Theorem canonical_string_without_body
    (md5_base64 : string → string) (method resource_path timestamp nonce : string) :
  Auth.valid_method method = true →
  Auth.valid_resource_path resource_path = true →
  Auth.valid_token timestamp = true →
  Auth.valid_token nonce = true →
  Auth.canonical_string md5_base64 method resource_path None timestamp nonce =
    method +:+ String newline (String newline (String newline
      (timestamp +:+ String newline
        ("x-ts-nonce:" +:+ nonce +:+ String newline resource_path)))) ∧
  split newline (Auth.canonical_string md5_base64 method resource_path None timestamp nonce) =
    [method; ""; ""; timestamp; "x-ts-nonce:" +:+ nonce; resource_path] ∧
  List.length
    (split newline
       (Auth.canonical_string md5_base64 method resource_path None timestamp nonce)) = 6%nat ∧
  endswith newline
    (Auth.canonical_string md5_base64 method resource_path None timestamp nonce) = false.
Proof.
  intros Hm Hp Ht Hn.
  apply valid_method_one_line in Hm.
  unfold Auth.valid_resource_path in Hp.
  apply andb_prop in Hp as [Hp Hnl]. apply andb_prop in Hp as [Hslash _].
  apply negb_true_iff in Hnl.
  unfold Auth.valid_token in Ht, Hn. apply negb_true_iff in Ht, Hn.
  assert (Hline : contains newline ("x-ts-nonce:" +:+ nonce) = false).
  { rewrite contains_app, Hn. reflexivity. }
  assert (Hsplit :
    split newline (Auth.canonical_string md5_base64 method resource_path None timestamp nonce) =
      [method; ""; ""; timestamp; "x-ts-nonce:" +:+ nonce; resource_path]).
  { unfold Auth.canonical_string, Auth.content_fields, Auth.build_canonical_string.
    rewrite (split_app newline method) by exact Hm.
    rewrite (split_app newline "") by reflexivity.
    rewrite (split_app newline "") by reflexivity.
    rewrite (split_app newline timestamp) by exact Ht.
    replace ("x-ts-nonce:" +:+ nonce +:+ String newline resource_path)
      with (("x-ts-nonce:" +:+ nonce) +:+ String newline resource_path) by reflexivity.
    rewrite (split_app newline ("x-ts-nonce:" +:+ nonce)) by exact Hline.
    rewrite (split_segment newline resource_path) by exact Hnl.
    reflexivity. }
  split; [reflexivity|]. split; [exact Hsplit|]. split; [rewrite Hsplit; reflexivity|].
  change (Auth.canonical_string md5_base64 method resource_path None timestamp nonce)
    with (method +:+ String newline
            ((String newline (String newline timestamp)) +:+ String newline
               (("x-ts-nonce:" +:+ nonce) +:+ String newline resource_path))).
  rewrite endswith_app.
  do 2 (lazymatch goal with
        | |- endswith _ (String ?n (?a +:+ ?b)) = _ =>
            change (String n (a +:+ b)) with (String n a +:+ b)
        end; rewrite endswith_app).
  destruct resource_path as [|c rest]; [discriminate Hslash|].
  change (endswith newline (String newline (String c rest)))
    with (endswith newline (String c rest)).
  destruct (endswith newline (String c rest)) eqn:He; [|reflexivity].
  apply endswith_contains in He. congruence.
Qed.

(** *** Closed instances *)

(** The constructors: default host over TLS, and a plain-HTTP client
    behind a proxy. *)
Example clients_of_both_classes :
  PhoneId_init "CUST1" "dGVzdGtleQ==" true "rest.telesign.com" None = Scenario.client ∧
  Verify_init "CUST1" "dGVzdGtleQ==" true "rest.telesign.com" None = Scenario.client ∧
  _url Scenario.client = "https://rest.telesign.com" ∧
  _proxy Scenario.client = None.
Proof. repeat split. Qed.

Example client_behind_proxy :
  ServiceBase_init "rest.telesign.com" "CUST1" "dGVzdGtleQ==" false (Some "localhost:8080") =
  mkServiceBase "CUST1" "dGVzdGtleQ==" "rest.telesign.com"
    (Some {[ "http" := "http://localhost:8080" ]}) "http://rest.telesign.com".
Proof. reflexivity. Qed.

(** The decoder on the bodies of the scripted responses. *)
Example loads_scripted_bodies :
  is_Some (Json.loads (text Scenario.ok_json)) ∧
  is_Some (Json.loads (text Scenario.unauthorized_json)) ∧
  is_Some (Json.loads (text Scenario.unavailable_json)) ∧
  Json.loads (text Scenario.unauthorized_html) = None ∧
  Json.loads (text Scenario.ok_html) = None ∧
  Json.loads "" = None ∧
  Json.loads "[1,]" = None ∧
  Json.loads " [1, -2.5e3, true, null, {}] " =
    Some (Json.JArray [Json.JInt 1; Json.JFloat "-2.5e3"; Json.JBool true; Json.JNull;
                       Json.JObject []]).
Proof. vm_compute. repeat split; eexists; reflexivity. Qed.

(** C1, witness: a 401 response with a JSON body. *)
Lemma validate_classifies_decoded_response_witness :
  ∃ d, Json.loads (text Scenario.unauthorized_json) = Some d ∧
       (_validate_response (ExtExn := string) Json.loads Scenario.unauthorized_json
          (Scenario.store [])).1
       = Raised (AuthorizationError d Scenario.unauthorized_json).
Proof.
  eexists. split; [vm_compute; reflexivity|].
  apply (validate_classifies_decoded_response (ExtExn := string) Json.loads
           Scenario.unauthorized_json _ (Scenario.store []));
    vm_compute; reflexivity.
Defined.

(** C1, counterexample: a 401 response whose body is an HTML page.  The
    decoder raises before the status code is looked at, so the exception
    is not [AuthorizationError]. *)
Lemma validate_unauthorized_html_raises_decode_error :
  status_code Scenario.unauthorized_html = 401 ∧
  (_validate_response (ExtExn := string) Json.loads Scenario.unauthorized_html
     (Scenario.store [])).1 = Raised JSONDecodeError ∧
  ¬ (∀ response : HttpResponse, status_code response = 401 →
       ∃ d, (_validate_response (ExtExn := string) Json.loads response
               (Scenario.store [])).1 = Raised (AuthorizationError d response)).
Proof.
  split; [reflexivity|]. split; [vm_compute; reflexivity|].
  intros H. destruct (H Scenario.unauthorized_html eq_refl) as [d Hd].
  vm_compute in Hd. discriminate Hd.
Qed.

(** C9, witness: the same HTML body under status 401 and under status
    200. *)
Lemma validate_decodes_before_status_witness :
  _validate_response (ExtExn := string) Json.loads Scenario.unauthorized_html
    (Scenario.store []) = (Raised JSONDecodeError, Scenario.store []) ∧
  _validate_response (ExtExn := string) Json.loads Scenario.ok_html
    (Scenario.store []) = (Raised JSONDecodeError, Scenario.store []).
Proof.
  split.
  - apply (validate_decodes_before_status (ExtExn := string) Json.loads
             Scenario.unauthorized_html (Scenario.store [])).
    vm_compute; reflexivity.
  - apply (validate_decodes_before_status (ExtExn := string) Json.loads
             Scenario.ok_html (Scenario.store [])).
    vm_compute; reflexivity.
Defined.

(** C4, witness: a six-digit code. *)
Lemma random_with_n_digits_code_witness :
  ∃ s, (random_with_n_digits (JSON := Json.value) (ExtExn := string) 6
          (Scenario.store [])).1 = Returned s ∧
       Z.of_nat (String.length s) = 6 ∧
       all_chars is_decimal_digit s = true.
Proof.
  apply (random_with_n_digits_code (JSON := Json.value) (ExtExn := string) 6
           (Scenario.store [])).
  lia.
Defined.

(** The scripted source draws 3, 10, 17, ... *)
Example random_with_n_digits_six :
  (random_with_n_digits (JSON := Json.value) (ExtExn := string) 6 (Scenario.store [])).1
  = Returned "307418".
Proof. vm_compute. reflexivity. Qed.

(** C5, witness: length zero and a negative length. *)
Lemma random_with_n_digits_never_raises_witness :
  (random_with_n_digits (JSON := Json.value) (ExtExn := string) 0 (Scenario.store [])).1
    = Returned "" ∧
  (random_with_n_digits (JSON := Json.value) (ExtExn := string) (-3) (Scenario.store [])).1
    = Returned "".
Proof.
  split.
  - rewrite (proj1 (random_with_n_digits_never_raises (JSON := Json.value)
                      (ExtExn := string) 0 (Scenario.store []) ltac:(lia))).
    reflexivity.
  - rewrite (proj1 (random_with_n_digits_never_raises (JSON := Json.value)
                      (ExtExn := string) (-3) (Scenario.store []) ltac:(lia))).
    reflexivity.
Defined.

(** C5, counterexample: asked for zero digits, the generator returns the
    empty string; it does not raise for lengths below one. *)
Lemma random_with_n_digits_zero_returns :
  (random_with_n_digits (JSON := Json.value) (ExtExn := string) 0 (Scenario.store [])).1
    = Returned "" ∧
  ¬ (∀ n : Z, n ≤ 0 →
       is_raised (random_with_n_digits (JSON := Json.value) (ExtExn := string) n
                    (Scenario.store [])).1 = true).
Proof.
  split; [vm_compute; reflexivity|].
  intros H. specialize (H 0 ltac:(lia)). vm_compute in H. discriminate H.
Qed.

(** C3, witness: scenario 1 of the specification. *)
Lemma canonical_string_without_body_witness :
  Auth.canonical_string (λ _, "") "GET" "/v1/verify/abc123" None "T1" "n1" =
    "GET" +:+ String newline (String newline (String newline
      ("T1" +:+ String newline ("x-ts-nonce:n1" +:+ String newline "/v1/verify/abc123")))) ∧
  split newline (Auth.canonical_string (λ _, "") "GET" "/v1/verify/abc123" None "T1" "n1") =
    ["GET"; ""; ""; "T1"; "x-ts-nonce:n1"; "/v1/verify/abc123"] ∧
  List.length
    (split newline (Auth.canonical_string (λ _, "") "GET" "/v1/verify/abc123" None "T1" "n1"))
    = 6%nat ∧
  endswith newline (Auth.canonical_string (λ _, "") "GET" "/v1/verify/abc123" None "T1" "n1")
    = false.
Proof.
  exact (canonical_string_without_body (λ _, "") "GET" "/v1/verify/abc123" "T1" "n1"
           eq_refl eq_refl eq_refl eq_refl).
Defined.

(** C2, an instance: what [Verify.sms] signs and what it posts. *)
Example sms_trace :
  s_trace (Verify_sms Json.loads Scenario.auth Scenario.http Scenario.proxies_left "13105551212" (Some "12345")
             "en" "" (Some "ATCK") None None (Scenario.store [Scenario.ok_json])).2 =
  let fields : gmap string string :=
    <["phone_number" := "13105551212"]> (<["language" := "en"]> (<["template" := ""]>
      (<["verify_code" := "12345"]> (<["ucid" := "ATCK"]> ∅)))) in
  [CallGenerateAuthHeaders "CUST1" "dGVzdGtleQ==" "/v1/verify/sms" "POST" (Some fields);
   CallRequests (mkRequest POST "https://rest.telesign.com/v1/verify/sms" None (Some fields)
                   (Scenario.signed_headers "CUST1") None)].
Proof. vm_compute. reflexivity. Qed.

(** C6, witness: [PhoneId.standard] on a plain phone number. *)
Lemma query_operations_sign_the_bare_path_witness :
  ∃ tail,
    s_trace (invoke Json.loads Scenario.auth Scenario.http Scenario.proxies_left Scenario.standard_call
               (Scenario.store [Scenario.ok_json])).2 =
      [] ++ CallGenerateAuthHeaders "CUST1" "dGVzdGtleQ=="
              "/v1/phoneid/standard/13105551212" "GET" None :: tail ∧
    startswith "/" "/v1/phoneid/standard/13105551212" = true ∧
    has_query "/v1/phoneid/standard/13105551212" = has_query "13105551212".
Proof.
  exact (query_operations_sign_the_bare_path Json.loads Scenario.auth Scenario.http Scenario.proxies_left
           Scenario.standard_call (Scenario.store [Scenario.ok_json]) eq_refl).
Defined.

(** C6, counterexample: a caller's string with a question mark in it.  The
    resource path handed to header generation then carries a query
    string, and so does the URL requested. *)
Lemma standard_signs_a_query_string :
  s_trace (invoke Json.loads Scenario.auth Scenario.http Scenario.proxies_left Scenario.standard_query_call
             (Scenario.store [Scenario.ok_json])).2 =
    [CallGenerateAuthHeaders "CUST1" "dGVzdGtleQ==" "/v1/phoneid/standard/13105551212?x=1"
       "GET" None;
     CallRequests (mkRequest GET "https://rest.telesign.com/v1/phoneid/standard/13105551212?x=1"
                     (Some ∅) None (Scenario.signed_headers "CUST1") None)] ∧
  has_query "/v1/phoneid/standard/13105551212?x=1" = true.
Proof. split; vm_compute; reflexivity. Qed.

(** C7, an instance: the client after a rejected call. *)
Example client_after_unauthorized :
  s_self (invoke Json.loads Scenario.auth Scenario.http Scenario.proxies_left Scenario.sms_extra_call
            (Scenario.store [Scenario.unauthorized_json])).2 = Scenario.client.
Proof. vm_compute. reflexivity. Qed.



(** C8, witness: [Verify.sms] with a code, and with the code omitted. *)
Lemma verify_code_is_the_callers_witness :
  (∃ r, (Verify_sms Json.loads Scenario.auth Scenario.http Scenario.proxies_left "13105551212" (Some "12345")
           "en" "" None None None (Scenario.store [Scenario.ok_json])).1 = Returned r ∧
        verify_code r = Some "12345") ∧
  (∃ r, (Verify_sms Json.loads Scenario.auth Scenario.http Scenario.proxies_left "13105551212" None
           "en" "" None None None (Scenario.store [Scenario.ok_json])).1 = Returned r ∧
        verify_code r = None).
Proof.
  split.
  - destruct (Verify_sms Json.loads Scenario.auth Scenario.http Scenario.proxies_left "13105551212" (Some "12345")
                "en" "" None None None (Scenario.store [Scenario.ok_json])).1
      as [r|e] eqn:H.
    + exists r. split; [reflexivity|].
      exact (proj1 (verify_code_is_the_callers Json.loads Scenario.auth Scenario.http Scenario.proxies_left)
               _ _ _ _ _ _ _ _ r H).
    + vm_compute in H. discriminate H.
  - destruct (Verify_sms Json.loads Scenario.auth Scenario.http Scenario.proxies_left "13105551212" None
                "en" "" None None None (Scenario.store [Scenario.ok_json])).1
      as [r|e] eqn:H.
    + exists r. split; [reflexivity|].
      exact (proj1 (verify_code_is_the_callers Json.loads Scenario.auth Scenario.http Scenario.proxies_left)
               _ _ _ _ _ _ _ _ r H).
    + vm_compute in H. discriminate H.
Defined.

(** C10, witness: [Verify.sms] with an [extra] that overrides
    [phone_number]. *)
Lemma extra_is_merged_last_witness :
  ∃ signed tail,
    s_trace (invoke Json.loads Scenario.auth Scenario.http Scenario.proxies_left Scenario.sms_extra_call
               (Scenario.store [Scenario.ok_json])).2 =
      [] ++ CallGenerateAuthHeaders "CUST1" "dGVzdGtleQ==" "/v1/verify/sms" "POST" signed
              :: tail ∧
    (∀ h env', Scenario.auth "CUST1" "dGVzdGtleQ==" "/v1/verify/sms" "POST" signed
                 [Scenario.ok_json] = (Returned h, env') →
               ∃ r, tail = [CallRequests r] ∧ req_headers r = h) ∧
    (∀ r, CallRequests r ∈ tail → payload r ≫= (.!! "phone_number") = Some "13107409700") ∧
    signed ≫= (.!! "phone_number") = Some "13107409700".
Proof.
  exact (extra_is_merged_last Json.loads Scenario.auth Scenario.http Scenario.proxies_left Scenario.sms_extra_call
           (Scenario.store [Scenario.ok_json]) {[ "phone_number" := "13107409700" ]}
           "phone_number" "13107409700" eq_refl eq_refl).
Defined.

(** C10, counterexample: [PhoneId.standard] with an [extra] that overrides
    [ucid].  The value from [extra] is sent, but header generation is
    given no fields, so no value of [ucid] is signed. *)
Lemma standard_sends_but_does_not_sign_extra :
  extra_of Scenario.standard_extra_call = Some {[ "ucid" := "LEAD" ]} ∧
  ∃ signed,
    s_trace (invoke Json.loads Scenario.auth Scenario.http Scenario.proxies_left Scenario.standard_extra_call
               (Scenario.store [Scenario.ok_json])).2 =
      [CallGenerateAuthHeaders "CUST1" "dGVzdGtleQ==" "/v1/phoneid/standard/13105551212"
         "GET" signed;
       CallRequests (mkRequest GET "https://rest.telesign.com/v1/phoneid/standard/13105551212"
                       (Some {[ "ucid" := "LEAD" ]}) None
                       (Scenario.signed_headers "CUST1") None)] ∧
    signed ≫= (.!! "ucid") ≠ Some "LEAD".
Proof.
  split; [reflexivity|]. exists None. split; [vm_compute; reflexivity | discriminate].
Qed.

(** * Further facts about the operations *)

Section OperationFacts.

Context {JSON ExtExn Env : Type}.
Variable json_decoder : string → option JSON.
Variable auth_headers :
  string → string → string → string → option (gmap string string) →
  Env → Outcome ExtExn (gmap string string) * Env.
Variable http : Request → Env → Outcome ExtExn HttpResponse * Env.
Variable proxies_left : Request → Env → gmap string string.

Local Abbreviation run := (invoke json_decoder auth_headers http proxies_left).
Local Abbreviation frame := (exchange json_decoder auth_headers http proxies_left).

(** Each method body is the frame applied to what the readers above give
    for it. *)
Lemma invoke_fields (op : Operation) :
  run op = frame (verb_of op) (resource_of op) (signed_of op) (fields_of op) (kept_code op).
Proof. destruct op; reflexivity. Qed.

(** Running an operation, by the answers of the collaborators. *)
Lemma invoke_run (op : Operation) (st : Store) :
  run op st =
  match signing_answer auth_headers op (s_self st) (s_env st) with
  | (Raised e, env1) =>
      (Raised (Foreign e),
       mkStore (s_self st) (s_rng st) env1 (s_trace st ++ [signing_call op (s_self st)]))
  | (Returned h, env1) =>
      let r := request_with op (s_self st) h in
      let self' := share_proxies r (proxies_left r env1) (s_self st) in
      let trace := s_trace st ++ [signing_call op (s_self st); CallRequests r] in
      match http r env1 with
      | (Raised e, env2) => (Raised (Foreign e), mkStore self' (s_rng st) env2 trace)
      | (Returned response, env2) =>
          (match json_decoder (text response) with
           | None => Raised JSONDecodeError
           | Some d =>
               if status_code response =? 200
               then Returned (Response_init d response (kept_code op))
               else if status_code response =? 401
                    then Raised (AuthorizationError d response)
                    else Raised (TelesignError d response)
           end,
           mkStore self' (s_rng st) env2 trace)
      end
  end.
Proof.
  rewrite invoke_fields, exchange_run. cbv zeta.
  unfold signing_answer, signing_call, request_with.
  destruct (auth_headers _ _ _ _ _ (s_env st)) as [[h|e] env1]; [|reflexivity].
  destruct (http _ env1) as [[response|e] env2]; rewrite <- app_assoc; reflexivity.
Qed.

(** X1: a failure of a collaborator reaches the caller as it is, and
    nothing is tried again.  When header generation raises, the operation
    raises that exception and makes no request, and the client is as
    before.  When the request raises, the operation raises that exception
    after this one request; the client is then as the request left it
    (its proxies dictionary may have been written to by [requests]).  In
    both cases the random source is as before. *)
Theorem collaborator_failures_propagate (op : Operation) (st : Store) :
  (∀ e env1,
     signing_answer auth_headers op (s_self st) (s_env st) = (Raised e, env1) →
     run op st =
       (Raised (Foreign e),
        mkStore (s_self st) (s_rng st) env1
          (s_trace st ++ [signing_call op (s_self st)]))) ∧
  (∀ h env1 e env2,
     signing_answer auth_headers op (s_self st) (s_env st) = (Returned h, env1) →
     http (request_with op (s_self st) h) env1 = (Raised e, env2) →
     run op st =
       (Raised (Foreign e),
        mkStore
          (share_proxies (request_with op (s_self st) h)
             (proxies_left (request_with op (s_self st) h) env1) (s_self st))
          (s_rng st) env2
          (s_trace st ++
           [signing_call op (s_self st); CallRequests (request_with op (s_self st) h)]))).
Proof.
  split.
  - intros e env1 Ha. rewrite invoke_run, Ha. reflexivity.
  - intros h env1 e env2 Ha Hh. rewrite invoke_run, Ha. cbv zeta. rewrite Hh. reflexivity.
Qed.

(** X2: every operation signs once and requests at most once, and what it
    requests is what it signed: the URL is the client's [_url] followed by
    the very resource path given to header generation, the verb is the
    method named there, the headers are the ones header generation
    returned, and the proxies are the client's [_proxy].  The fields sent
    are the method's [fields] dictionary: a query operation sends it as
    URL parameters and no body, [Verify.sms] and [Verify.call] send it as
    the body, with no URL parameters, and sign it. *)
Theorem request_matches_signature (op : Operation) (st : Store) :
  ∃ resource method signed tail,
    s_trace (run op st).2 =
      s_trace st ++
      CallGenerateAuthHeaders (_customer_id (s_self st)) (_secret_key (s_self st))
        resource method signed :: tail ∧
    (tail = [] ∨ ∃ r, tail = [CallRequests r]) ∧
    ∀ r, CallRequests r ∈ tail →
      req_url r = _url (s_self st) +:+ resource ∧
      method_name (req_verb r) = method ∧
      req_proxies r = _proxy (s_self st) ∧
      (∃ env1, auth_headers (_customer_id (s_self st)) (_secret_key (s_self st))
                 resource method signed (s_env st) = (Returned (req_headers r), env1)) ∧
      payload r = Some (fields_of op) ∧
      (if is_query op
       then req_params r = Some (fields_of op) ∧ req_data r = None ∧ signed = None
       else req_params r = None ∧ req_data r = Some (fields_of op) ∧ req_data r = signed).
Proof.
  exists (resource_of op), (method_name (verb_of op)), (signed_of op).
  rewrite invoke_run. unfold signing_answer, signing_call.
  destruct (auth_headers _ _ _ _ _ (s_env st)) as [[h|e] env1] eqn:Ha.
  - exists [CallRequests (request_with op (s_self st) h)].
    split.
    { cbv zeta. destruct (http _ env1) as [[response|e] env2]; reflexivity. }
    split; [right; eexists; reflexivity|].
    intros r Hr. apply list_elem_of_singleton in Hr. injection Hr as ->.
    unfold request_with, signed_of, verb_of.
    destruct (is_query op); cbn; repeat split; eauto.
  - exists []. split; [reflexivity|]. split; [left; reflexivity|].
    intros r Hr. apply elem_of_nil in Hr. destruct Hr.
Qed.


(** The collaborators' answers behind a response the operation received. *)
Lemma invoke_received (op : Operation) (st : Store) (o : Outcome Exn Response) :
  (run op st).1 = o →
  (∃ e, o = Raised (Foreign e)) ∨
  ∃ h env1 response env2,
    signing_answer auth_headers op (s_self st) (s_env st) = (Returned h, env1) ∧
    http (request_with op (s_self st) h) env1 = (Returned response, env2) ∧
    o = match json_decoder (text response) with
        | None => Raised JSONDecodeError
        | Some d =>
            if status_code response =? 200
            then Returned (Response_init d response (kept_code op))
            else if status_code response =? 401
                 then Raised (AuthorizationError d response)
                 else Raised (TelesignError d response)
        end.
Proof.
  intros <-. rewrite invoke_run.
  destruct (signing_answer _ _ _ _) as [[h|e] env1] eqn:Ha; [|left; eexists; reflexivity].
  cbv zeta.
  destruct (http _ env1) as [[response|e] env2] eqn:Hh; [|left; eexists; reflexivity].
  right. exists h, env1, response, env2. repeat split. exact Hh.
Qed.

(** X4: a response object returned by an operation stands for a response
    the service gave with status 200 to the request of this operation: its
    [status] is 200, its [headers] and [raw_data] are those of the HTTP
    response, and its [data] is the JSON decoding of [raw_data].  The
    query operations leave [verify_code] at [None], [Verify.status]
    included, whatever code it was given. *)
Theorem returned_response_is_the_ok_response (op : Operation) (st : Store) (r : Response) :
  (run op st).1 = Returned r →
  status r = 200 ∧
  json_decoder (raw_data r) = Some (data r) ∧
  (is_query op = true → verify_code r = None) ∧
  ∃ h env1 env2,
    signing_answer auth_headers op (s_self st) (s_env st) = (Returned h, env1) ∧
    http (request_with op (s_self st) h) env1 =
      (Returned (mkHttpResponse (headers r) (status r) (raw_data r)), env2).
Proof.
  intros H. apply invoke_received in H as [[e He]|(h & env1 & response & env2 & Ha & Hh & Ho)];
    [discriminate He|].
  destruct (json_decoder (text response)) as [d|] eqn:Hd; [|discriminate Ho].
  destruct (Z.eqb_spec (status_code response) 200) as [H200|H200];
    [|destruct (status_code response =? 401); discriminate Ho].
  injection Ho as ->. cbn [status raw_data data headers verify_code Response_init].
  repeat split; [exact H200 | exact Hd | |].
  - intros Hq. destruct op; try discriminate Hq; reflexivity.
  - exists h, env1, env2. split; [exact Ha|]. destruct response. exact Hh.
Qed.

(** X5: the service errors raised by an operation follow the status of
    the response it received.  [AuthorizationError] is raised only for a
    received response with status 401, [TelesignError] only for one with a
    status other than 200 and 401; both carry that response and the
    decoding of its body.  No operation raises [IndexError]. *)
Theorem operation_errors_follow_the_status (op : Operation) (st : Store) :
  (∀ d response,
     (run op st).1 = Raised (AuthorizationError d response) →
     status_code response = 401 ∧ json_decoder (text response) = Some d ∧
     ∃ h env1 env2,
       signing_answer auth_headers op (s_self st) (s_env st) = (Returned h, env1) ∧
       http (request_with op (s_self st) h) env1 = (Returned response, env2)) ∧
  (∀ d response,
     (run op st).1 = Raised (TelesignError d response) →
     status_code response ≠ 200 ∧ status_code response ≠ 401 ∧
     json_decoder (text response) = Some d ∧
     ∃ h env1 env2,
       signing_answer auth_headers op (s_self st) (s_env st) = (Returned h, env1) ∧
       http (request_with op (s_self st) h) env1 = (Returned response, env2)) ∧
  (run op st).1 ≠ Raised IndexError.
Proof.
  split; [|split].
  - intros d response H.
    apply invoke_received in H as [[e He]|(h & env1 & resp & env2 & Ha & Hh & Ho)];
      [discriminate He|].
    destruct (json_decoder (text resp)) as [d0|] eqn:Hd; [|discriminate Ho].
    destruct (Z.eqb_spec (status_code resp) 200); [discriminate Ho|].
    destruct (Z.eqb_spec (status_code resp) 401); [|discriminate Ho].
    injection Ho as -> ->. repeat split; [assumption..|]. eauto.
  - intros d response H.
    apply invoke_received in H as [[e He]|(h & env1 & resp & env2 & Ha & Hh & Ho)];
      [discriminate He|].
    destruct (json_decoder (text resp)) as [d0|] eqn:Hd; [|discriminate Ho].
    destruct (Z.eqb_spec (status_code resp) 200); [discriminate Ho|].
    destruct (Z.eqb_spec (status_code resp) 401); [discriminate Ho|].
    injection Ho as -> ->. repeat split; [assumption..|]. eauto.
  - intros H.
    apply invoke_received in H as [[e He]|(h & env1 & resp & env2 & Ha & Hh & Ho)];
      [discriminate He|].
    destruct (json_decoder (text resp)); [|discriminate Ho].
    destruct (status_code resp =? 200); [discriminate Ho|].
    destruct (status_code resp =? 401); discriminate Ho.
Qed.

(** X6: an empty [extra] dictionary is the same as no [extra] at all:
    the operation runs the same way, call for call. *)
Theorem empty_extra_is_no_extra (op : Operation) (st : Store) :
  run (with_extra (Some ∅) op) st = run (with_extra None op) st.
Proof.
  rewrite !invoke_fields.
  assert (Hf : fields_of (with_extra (Some ∅) op) = fields_of (with_extra None op)).
  { destruct op; cbn [with_extra fields_of]; unfold update; apply (left_id_L ∅ (∪)). }
  unfold signed_of. rewrite Hf. destruct op; reflexivity.
Qed.

End OperationFacts.

(** * Further facts about the request fields *)

Lemma fields_of_with_extra (op : Operation) (ex : gmap string string) :
  fields_of (with_extra (Some ex) op) = ex ∪ fields_of (with_extra None op).
Proof. destruct op; reflexivity. Qed.

Lemma with_extra_of (op : Operation) : with_extra (extra_of op) op = op.
Proof. destruct op; reflexivity. Qed.

(** X7: [extra] adds entries and overrides entries, and does nothing else
    to the fields: they are the fields of the same call without [extra],
    updated by [extra].  A key that [extra] does not hold keeps the value
    the method assembled, and no key the method assembled is lost. *)
Theorem extra_adds_or_overrides_only (op : Operation) (ex : gmap string string) :
  extra_of op = Some ex →
  fields_of op = ex ∪ fields_of (with_extra None op) ∧
  (∀ k, ex !! k = None → fields_of op !! k = fields_of (with_extra None op) !! k) ∧
  (∀ k, is_Some (fields_of (with_extra None op) !! k) → is_Some (fields_of op !! k)).
Proof.
  intros Hex.
  assert (Hf : fields_of op = ex ∪ fields_of (with_extra None op)).
  { rewrite <- fields_of_with_extra, <- Hex, with_extra_of. reflexivity. }
  split; [exact Hf|]. rewrite Hf. split.
  - intros k Hk. apply lookup_union_r. exact Hk.
  - intros k Hk. apply lookup_union_is_Some. right. exact Hk.
Qed.

Lemma fields_of_extra_of (op : Operation) :
  fields_of op =
  match extra_of op with
  | Some ex => ex ∪ fields_of (with_extra None op)
  | None => fields_of (with_extra None op)
  end.
Proof. destruct op as [? ? []|? ? []|? ? []|? ? []|? ? ? ? ? ? []|? ? ? ? ? ? ? ? ? []|? ? []]; reflexivity. Qed.

(** Case analysis on a lookup in a dictionary built by assignments. *)
Ltac lookup_cases H :=
  repeat first
    [ rewrite lookup_empty in H; discriminate H
    | apply lookup_singleton_Some in H as [<- <-]
    | apply lookup_insert_Some in H as [[<- <-]|[_ H]] ].

Lemma assembled_values (op : Operation) (k v : string) :
  fields_of (with_extra None op) !! k = Some v → v ∈ parameter_values op.
Proof.
  destruct op as [p u e|p u e|p u e|p u e|p c l t u ip e|p c u vm l et rd ip px e|r c e];
    cbn [with_extra fields_of parameter_values]; intros H.
  - destruct u as [[|a u]|]; cbn [truthy setitem] in H; lookup_cases H; set_solver.
  - lookup_cases H; set_solver.
  - lookup_cases H; set_solver.
  - lookup_cases H; set_solver.
  - destruct c as [[|a c]|], u as [[|b u]|], ip as [ip|];
      cbn [truthy is_not_None setitem] in H; lookup_cases H; set_solver.
  - destruct c as [[|a c]|], u as [[|b u]|], ip as [ip|], px as [[|d px]|];
      cbn [truthy is_not_None setitem] in H; lookup_cases H; set_solver.
  - destruct c as [c|]; cbn [is_not_None setitem] in H; lookup_cases H; set_solver.
Qed.

(** A parameter holds what the caller passed or, omitted, its default. *)
Lemma parameter_values_of_site (site : CallSite) (v : string) :
  v ∈ parameter_values (bind_defaults site) →
  v ∈ passed_values site ∨ v ∈ default_values site.
Proof.
  destruct site as [p u e|p u e|p u e|p u e|p c l t u ip e|p c u vm l et rd ip px e|r c e];
    cbn [bind_defaults parameter_values passed_values default_values].
  - intros H. left. exact H.
  - intros H. left. exact H.
  - intros H. left. exact H.
  - intros H. left. exact H.
  - destruct l as [l|], t as [t|];
      cbn [default default_if_omitted option_list from_option];
      repeat first [rewrite elem_of_cons | rewrite elem_of_app | rewrite elem_of_nil];
      tauto.
  - destruct vm as [vm|], l as [l|], et as [et|], rd as [rd|];
      cbn [default default_if_omitted option_list from_option];
      repeat first [rewrite elem_of_cons | rewrite elem_of_app | rewrite elem_of_nil];
      tauto.
  - intros H. left. exact H.
Qed.

(** X8: the request fields hold only values that the call brought in.
    Every value in them is a string the caller passed, or the default of
    a parameter the caller omitted (["en"] for [language], the empty
    string for [template], [verify_method], [extension_type] and
    [redial]), or the value [extra] gives for that key.  The methods put
    in no other value: none they compute, and none of the attributes of
    the client. *)
Theorem fields_hold_arguments_and_defaults (site : CallSite) (k v : string) :
  fields_of (bind_defaults site) !! k = Some v →
  v ∈ passed_values site ∨
  v ∈ default_values site ∨
  ∃ ex, extra_of (bind_defaults site) = Some ex ∧ ex !! k = Some v.
Proof.
  rewrite fields_of_extra_of.
  destruct (extra_of (bind_defaults site)) as [ex|] eqn:Hex.
  - intros H. apply lookup_union_Some_raw in H as [H|[_ H]].
    + right. right. exists ex. split; [reflexivity | exact H].
    + apply assembled_values, parameter_values_of_site in H. tauto.
  - intros H. apply assembled_values, parameter_values_of_site in H. tauto.
Qed.

Lemma assembled_unconditionally (op : Operation) (k : string) :
  k ∈ unconditional_keys op → is_Some (fields_of (with_extra None op) !! k).
Proof.
  destruct op as [p u e|p u e|p u e|p u e|p c l t u ip e|p c u vm l et rd ip px e|r c e];
    cbn [with_extra fields_of unconditional_keys]; intros Hk;
    repeat (apply elem_of_cons in Hk as [->|Hk]);
    try (apply elem_of_nil in Hk; destruct Hk).
  1-3: eexists; reflexivity.
  1-3: destruct c as [[|a c]|], u as [[|b u]|], ip as [ip|]; eexists; reflexivity.
  all: destruct c as [[|a c]|], u as [[|b u]|], ip as [ip|], px as [[|d px]|];
    eexists; reflexivity.
Qed.

(** X9: the fields a method writes unconditionally are in every request,
    whatever the optional arguments and whatever [extra] holds:
    [phone_number], [language] and [template] for [Verify.sms];
    [phone_number], [language], [verify_method], [extension_type] and
    [redial] for [Verify.call]; [ucid] for [PhoneId.score], [contact] and
    [live], even when the use-case code is the empty string. *)
Theorem unconditional_fields_are_always_sent (op : Operation) (k : string) :
  k ∈ unconditional_keys op → is_Some (fields_of op !! k).
Proof.
  intros Hk. apply assembled_unconditionally in Hk.
  rewrite fields_of_extra_of. destruct (extra_of op) as [ex|]; [|exact Hk].
  apply lookup_union_is_Some. right. exact Hk.
Qed.

(** Looking up, in the fields, a key that [extra] does not hold. *)
Lemma lookup_fields_outside_extra (op : Operation) (k : string) :
  extra_of op ≫= (.!! k) = None →
  fields_of op !! k = fields_of (with_extra None op) !! k.
Proof.
  rewrite fields_of_extra_of. destruct (extra_of op) as [ex|]; [|reflexivity].
  intros Hk. apply lookup_union_r. exact Hk.
Qed.

(** X10: how the optional arguments reach the fields, for a key that
    [extra] does not hold.  [Verify.sms] and [Verify.call] put
    [verify_code], [ucid] and (for [call]) [pressx] in the fields only
    for a non-empty string, but [originating_ip] for any string, the
    empty one included.  [Verify.status] puts [verify_code] for any
    string, the empty one included.  [PhoneId.standard] puts [ucid] only
    for a non-empty use-case code, while [score], [contact] and [live]
    put it for any. *)
Theorem optional_fields_follow_their_guards :
  (∀ p c l t u ip e,
     (e ≫= (.!! "verify_code") = None →
        fields_of (OpSms p c l t u ip e) !! "verify_code" = if truthy c then c else None) ∧
     (e ≫= (.!! "ucid") = None →
        fields_of (OpSms p c l t u ip e) !! "ucid" = if truthy u then u else None) ∧
     (e ≫= (.!! "originating_ip") = None →
        fields_of (OpSms p c l t u ip e) !! "originating_ip" = ip)) ∧
  (∀ p c u vm l et rd ip px e,
     (e ≫= (.!! "verify_code") = None →
        fields_of (OpCall p c u vm l et rd ip px e) !! "verify_code" =
          if truthy c then c else None) ∧
     (e ≫= (.!! "pressx") = None →
        fields_of (OpCall p c u vm l et rd ip px e) !! "pressx" =
          if truthy px then px else None) ∧
     (e ≫= (.!! "ucid") = None →
        fields_of (OpCall p c u vm l et rd ip px e) !! "ucid" =
          if truthy u then u else None) ∧
     (e ≫= (.!! "originating_ip") = None →
        fields_of (OpCall p c u vm l et rd ip px e) !! "originating_ip" = ip)) ∧
  (∀ r c e,
     e ≫= (.!! "verify_code") = None →
     fields_of (OpStatus r c e) !! "verify_code" = c) ∧
  (∀ p u e,
     e ≫= (.!! "ucid") = None →
     fields_of (OpStandard p u e) !! "ucid" = (if truthy u then u else None) ∧
     ∀ us, fields_of (OpScore p us e) !! "ucid" = Some us ∧
           fields_of (OpContact p us e) !! "ucid" = Some us ∧
           fields_of (OpLive p us e) !! "ucid" = Some us).
Proof.
  split; [|split; [|split]].
  - intros p c l t u ip e. repeat split; intros He;
      rewrite (lookup_fields_outside_extra (OpSms p c l t u ip e) _ He);
      destruct c as [[|a c]|], u as [[|b u]|], ip as [ip|]; reflexivity.
  - intros p c u vm l et rd ip px e. repeat split; intros He;
      rewrite (lookup_fields_outside_extra (OpCall p c u vm l et rd ip px e) _ He);
      destruct c as [[|a c]|], u as [[|b u]|], ip as [ip|], px as [[|d px]|]; reflexivity.
  - intros r c e He.
    rewrite (lookup_fields_outside_extra (OpStatus r c e) _ He).
    destruct c as [c|]; reflexivity.
  - intros p u e He. split.
    + rewrite (lookup_fields_outside_extra (OpStandard p u e) _ He).
      destruct u as [[|a u]|]; reflexivity.
    + intros us. repeat split.
      * rewrite (lookup_fields_outside_extra (OpScore p us e) _ He). reflexivity.
      * rewrite (lookup_fields_outside_extra (OpContact p us e) _ He). reflexivity.
      * rewrite (lookup_fields_outside_extra (OpLive p us e) _ He). reflexivity.
Qed.

(** X11: the signed resource path tells the query operations and their
    arguments apart: two query calls with the same resource path are
    calls of the same endpoint with the same string. *)
Theorem query_resources_are_distinct (op1 op2 : Operation) :
  is_query op1 = true → is_query op2 = true →
  resource_of op1 = resource_of op2 →
  endpoint op1 = endpoint op2 ∧ path_argument op1 = path_argument op2.
Proof.
  intros H1 H2.
  destruct op1, op2; try discriminate H1; try discriminate H2;
    unfold resource_of; cbn [endpoint path_argument]; intros H; simpl in H;
    simplify_eq; split; reflexivity.
Qed.

(** * Further facts about the code generator *)

Lemma choice_of_draw (m : nat) :
  String.get (m mod 10) "0123456789" = Some (digit_of_draw m).
Proof.
  unfold digit_of_draw.
  assert (Hm : (m mod 10 < 10)%nat) by (apply Nat.mod_upper_bound; discriminate).
  destruct (m mod 10)%nat as [|i]; [reflexivity|].
  do 9 (destruct i as [|i]; [reflexivity|]).
  lia.
Qed.

Lemma code_of_draws_length (d : nat → nat) (from count : nat) :
  String.length (code_of_draws d from count) = count.
Proof.
  revert from. induction count as [|count IH]; intros from; [reflexivity|].
  cbn. rewrite IH. reflexivity.
Qed.

Lemma code_of_draws_get (d : nat → nat) (from count i : nat) :
  (i < count)%nat →
  String.get i (code_of_draws d from count) = Some (digit_of_draw (d (from + i)%nat)).
Proof.
  revert from i. induction count as [|count IH]; intros from i Hi; [lia|].
  destruct i as [|i]; cbn.
  - rewrite Nat.add_0_r. reflexivity.
  - rewrite IH by lia. rewrite Nat.add_succ_r. reflexivity.
Qed.

Lemma code_of_draws_app (d : nat → nat) (from a b : nat) :
  code_of_draws d from (a + b) =
  code_of_draws d from a +:+ code_of_draws d (from + a) b.
Proof.
  revert from. induction a as [|a IH]; intros from.
  - cbn. rewrite Nat.add_0_r. reflexivity.
  - cbn. rewrite IH, Nat.add_succ_r. reflexivity.
Qed.

Lemma code_of_draws_ext (d d' : nat → nat) (from count : nat) :
  (∀ i, (from ≤ i < from + count)%nat → d i = d' i) →
  code_of_draws d from count = code_of_draws d' from count.
Proof.
  revert from. induction count as [|count IH]; intros from H; [reflexivity|].
  cbn. rewrite (H from) by lia. rewrite (IH (S from)); [reflexivity|].
  intros i Hi. apply H. lia.
Qed.

Lemma digit_of_its_value (c : ascii) :
  is_decimal_digit c = true → digit_of_draw (nat_of_ascii c - 48) = c.
Proof.
  destruct c as [[] [] [] [] [] [] [] []]; intros H; try discriminate H; reflexivity.
Qed.

Lemma draws_for_code (s : string) (from : nat) :
  all_chars is_decimal_digit s = true →
  ∃ d, code_of_draws d from (String.length s) = s.
Proof.
  revert from. induction s as [|c s IH]; intros from H.
  - exists (λ _, 0%nat). reflexivity.
  - cbn in H. apply andb_prop in H as [Hc Hs].
    destruct (IH (S from) Hs) as [d Hd].
    exists (λ i, if (i =? from)%nat then (nat_of_ascii c - 48)%nat else d i).
    cbn. rewrite Nat.eqb_refl, (digit_of_its_value c Hc). f_equal.
    rewrite <- Hd at 2. apply code_of_draws_ext.
    intros i Hi. destruct (Nat.eqb_spec i from); [lia | reflexivity].
Qed.

Section GeneratorFacts.

Context {JSON ExtExn Env : Type}.

Local Abbreviation generate := (random_with_n_digits (JSON := JSON) (ExtExn := ExtExn)).

(** The store after [count] draws. *)
Lemma join_choices_by_draws (count : nat) (st : Store (Env := Env)) :
  join_choices (JSON := JSON) (ExtExn := ExtExn) count st =
  (Returned (code_of_draws (draws (s_rng st)) (cursor (s_rng st)) count),
   mkStore (s_self st)
     (mkSystemRandom (draws (s_rng st)) (count + cursor (s_rng st)))
     (s_env st) (s_trace st)).
Proof.
  revert st. induction count as [|count IH]; intros st.
  - destruct st as [self [d c] env tr]. reflexivity.
  - cbn [join_choices]. unfold mbind, M_bind at 1.
    unfold rng_choice, _randbelow.
    change (String.length "0123456789") with 10%nat.
    rewrite choice_of_draw. unfold M_bind at 1. rewrite IH.
    cbn. rewrite Nat.add_succ_r. reflexivity.
Qed.

Lemma generate_run (n : Z) (st : Store (Env := Env)) :
  generate n st =
  (Returned (code_of_draws (draws (s_rng st)) (cursor (s_rng st)) (Z.to_nat n)),
   mkStore (s_self st)
     (mkSystemRandom (draws (s_rng st)) (Z.to_nat n + cursor (s_rng st)))
     (s_env st) (s_trace st ++ [CallRandomWithNDigits n])).
Proof.
  unfold random_with_n_digits, emit, mbind, M_bind.
  rewrite join_choices_by_draws. reflexivity.
Qed.

(** X12: a call of [random_with_n_digits] spends exactly [n] draws of the
    random source (none for [n <= 0]), one per character: the character at
    position [i] of the code is the digit picked for draw [i] counted
    from the cursor, whatever the other draws are.  The client and the
    outside world are left as they were. *)
Theorem code_spends_one_draw_per_digit (n : Z) (st : Store (Env := Env)) :
  ∃ s,
    (generate n st).1 = Returned s ∧
    String.length s = Z.to_nat n ∧
    (∀ i, (i < Z.to_nat n)%nat →
       String.get i s =
         Some (digit_of_draw (draws (s_rng st) (cursor (s_rng st) + i)%nat))) ∧
    draws (s_rng (generate n st).2) = draws (s_rng st) ∧
    cursor (s_rng (generate n st).2) = (Z.to_nat n + cursor (s_rng st))%nat ∧
    s_self (generate n st).2 = s_self st ∧
    s_env (generate n st).2 = s_env st.
Proof.
  rewrite generate_run. eexists. split; [reflexivity|].
  split; [apply code_of_draws_length|].
  split; [intros i Hi; apply code_of_draws_get; exact Hi|].
  repeat split.
Qed.

(** X13: codes drawn one after the other are the pieces of one longer
    code: for lengths [a] and [b] that are not negative, a call for [a]
    digits followed by a call for [b] digits returns two strings whose
    concatenation is what a single call for [a + b] digits returns from
    the same state, and both ways leave the random source in the same
    state. *)
Theorem consecutive_codes_concatenate (a b : Z) (st : Store (Env := Env)) :
  0 ≤ a → 0 ≤ b →
  ∃ s1 s2,
    (generate a st).1 = Returned s1 ∧
    (generate b (generate a st).2).1 = Returned s2 ∧
    (generate (a + b) st).1 = Returned (s1 +:+ s2) ∧
    s_rng (generate b (generate a st).2).2 = s_rng (generate (a + b) st).2.
Proof.
  intros Ha Hb. rewrite !generate_run. cbn [fst snd s_rng draws cursor].
  eexists _, _. split; [reflexivity|]. split; [reflexivity|].
  rewrite Z2Nat.inj_add by assumption.
  rewrite code_of_draws_app.
  rewrite (Nat.add_comm (cursor (s_rng st)) (Z.to_nat a)).
  split; [reflexivity|]. f_equal. lia.
Qed.

(** X14: no code is out of reach: for every string of decimal digits,
    leading zeros included, there is a sequence of draws for which
    [random_with_n_digits], asked for the length of the string, returns
    that string. *)
Theorem every_code_can_be_drawn (s : string) (st : Store (Env := Env)) :
  all_chars is_decimal_digit s = true →
  ∃ d,
    (generate (Z.of_nat (String.length s))
       (mkStore (s_self st) (mkSystemRandom d (cursor (s_rng st))) (s_env st) (s_trace st))).1
    = Returned s.
Proof.
  intros Hs. destruct (draws_for_code s (cursor (s_rng st)) Hs) as [d Hd].
  exists d. rewrite generate_run. cbn [fst s_rng draws cursor].
  rewrite Nat2Z.id, Hd. reflexivity.
Qed.

End GeneratorFacts.

(** * The verification code of a call and of its response *)

Section CodeFacts.

Context {JSON ExtExn Env : Type}.
Variable json_decoder : string → option JSON.
Variable auth_headers :
  string → string → string → string → option (gmap string string) →
  Env → Outcome ExtExn (gmap string string) * Env.
Variable http : Request → Env → Outcome ExtExn HttpResponse * Env.
Variable proxies_left : Request → Env → gmap string string.

Local Abbreviation run := (invoke json_decoder auth_headers http proxies_left).

(** X15: the [verify_code] of a response object need not be a code that
    was sent.  When [Verify.sms] or [Verify.call] is given no code or the
    empty string, and [extra] holds no [verify_code] either, the fields
    signed and sent have no [verify_code] entry, so that the service
    picks the code; a response object returned still carries the
    argument as it was given, the empty string included. *)
Theorem falsy_code_is_kept_but_not_sent (op : Operation) (st : Store) :
  is_query op = false →
  truthy (kept_code op) = false →
  extra_of op ≫= (.!! "verify_code") = None →
  ∃ fields tail,
    s_trace (run op st).2 =
      s_trace st ++
      CallGenerateAuthHeaders (_customer_id (s_self st)) (_secret_key (s_self st))
        (resource_of op) "POST" (Some fields) :: tail ∧
    fields !! "verify_code" = None ∧
    (∀ r, CallRequests r ∈ tail → req_data r = Some fields) ∧
    (∀ r, (run op st).1 = Returned r → verify_code r = kept_code op).
Proof.
  intros Hq Hc He.
  exists (fields_of op).
  assert (Hno : fields_of op !! "verify_code" = None).
  { rewrite (lookup_fields_outside_extra op _ He).
    destruct op as [| | | |p c l t u ip e|p c u vm l et rd ip px e|]; try discriminate Hq.
    - destruct c as [[|a c]|]; try discriminate Hc;
        destruct u as [[|b u]|], ip as [ip|]; reflexivity.
    - destruct c as [[|a c]|]; try discriminate Hc;
        destruct u as [[|b u]|], ip as [ip|], px as [[|d px]|]; reflexivity. }
  assert (Hverb : verb_of op = POST) by (unfold verb_of; rewrite Hq; reflexivity).
  assert (Hsigned : signed_of op = Some (fields_of op))
    by (unfold signed_of; rewrite Hq; reflexivity).
  pose proof (invoke_run json_decoder auth_headers http proxies_left op st) as Hrun.
  unfold signing_answer, signing_call, request_with in Hrun.
  rewrite Hverb, Hsigned in Hrun. cbn [method_name request_of] in Hrun.
  rewrite Hrun.
  destruct (auth_headers _ _ _ _ _ (s_env st)) as [[h|e] env1].
  - eexists. split.
    { cbv zeta. destruct (http _ env1) as [[response|e] env2]; reflexivity. }
    split; [exact Hno|]. split.
    + intros r Hr. apply list_elem_of_singleton in Hr. injection Hr as ->. reflexivity.
    + cbv zeta. destruct (http _ env1) as [[response|e] env2]; [|discriminate].
      cbn [fst]. destruct (json_decoder (text response)); [|discriminate].
      destruct (status_code response =? 200); [intros r [= <-]; reflexivity|].
      destruct (status_code response =? 401); discriminate.
  - exists []. split; [reflexivity|]. split; [exact Hno|]. split.
    + intros r Hr. apply elem_of_nil in Hr. destruct Hr.
    + discriminate.
Qed.

End CodeFacts.

(** * Closed instances of the further facts *)

(** X1, witness: header generation rejecting the key, and a network with
    nothing to answer. *)
Lemma collaborator_failures_propagate_witness :
  invoke Json.loads Outage.auth Scenario.http Scenario.proxies_left Scenario.standard_call (Scenario.store []) =
    (Raised (Foreign "binascii.Error: Incorrect padding"),
     mkStore Scenario.client Scenario.rng []
       [signing_call Scenario.standard_call Scenario.client]) ∧
  invoke Json.loads Scenario.auth Scenario.http Scenario.proxies_left Scenario.standard_call (Scenario.store []) =
    (Raised (Foreign "ConnectionError"),
     mkStore Scenario.client Scenario.rng []
       [signing_call Scenario.standard_call Scenario.client;
        CallRequests (request_with Scenario.standard_call Scenario.client
                        (Scenario.signed_headers "CUST1"))]).
Proof.
  split.
  - exact (proj1 (collaborator_failures_propagate Json.loads Outage.auth Scenario.http Scenario.proxies_left
                    Scenario.standard_call (Scenario.store [])) _ _ eq_refl).
  - exact (proj2 (collaborator_failures_propagate Json.loads Scenario.auth Scenario.http Scenario.proxies_left
                    Scenario.standard_call (Scenario.store [])) _ _ _ _ eq_refl eq_refl).
Defined.


(** X4, witness: [Verify.status] with a code, answered with status 200. *)
Lemma returned_response_is_the_ok_response_witness :
  ∃ r, (invoke Json.loads Scenario.auth Scenario.http Scenario.proxies_left Outage.status_call
          (Scenario.store [Scenario.ok_json])).1 = Returned r ∧
       status r = 200 ∧ verify_code r = None ∧
       Json.loads (raw_data r) = Some (data r).
Proof.
  destruct (invoke Json.loads Scenario.auth Scenario.http Scenario.proxies_left Outage.status_call
              (Scenario.store [Scenario.ok_json])).1 as [r|e] eqn:H.
  - exists r. split; [reflexivity|].
    destruct (returned_response_is_the_ok_response Json.loads Scenario.auth Scenario.http Scenario.proxies_left
                Outage.status_call (Scenario.store [Scenario.ok_json]) r H)
      as (Hs & Hd & Hc & _).
    split; [exact Hs|]. split; [exact (Hc eq_refl) | exact Hd].
  - vm_compute in H. discriminate H.
Defined.

(** X5, witness: a call rejected with status 401, and one answered with
    status 503. *)
Lemma operation_errors_follow_the_status_witness :
  (∃ d response,
     (invoke Json.loads Scenario.auth Scenario.http Scenario.proxies_left Scenario.sms_extra_call
        (Scenario.store [Scenario.unauthorized_json])).1
       = Raised (AuthorizationError d response) ∧
     status_code response = 401 ∧ Json.loads (text response) = Some d) ∧
  (∃ d response,
     (invoke Json.loads Scenario.auth Scenario.http Scenario.proxies_left Scenario.sms_extra_call
        (Scenario.store [Scenario.unavailable_json])).1
       = Raised (TelesignError d response) ∧
     status_code response ≠ 200 ∧ status_code response ≠ 401 ∧
     Json.loads (text response) = Some d).
Proof.
  split.
  - destruct (invoke Json.loads Scenario.auth Scenario.http Scenario.proxies_left Scenario.sms_extra_call
                (Scenario.store [Scenario.unauthorized_json])).1 as [r|e] eqn:H;
      [vm_compute in H; discriminate H|].
    destruct e as [|d response|d response| |e]; try (vm_compute in H; discriminate H).
    exists d, response. split; [reflexivity|].
    destruct (proj1 (operation_errors_follow_the_status Json.loads Scenario.auth
                       Scenario.http Scenario.proxies_left Scenario.sms_extra_call
                       (Scenario.store [Scenario.unauthorized_json])) d response H)
      as (Hs & Hd & _).
    split; [exact Hs | exact Hd].
  - destruct (invoke Json.loads Scenario.auth Scenario.http Scenario.proxies_left Scenario.sms_extra_call
                (Scenario.store [Scenario.unavailable_json])).1 as [r|e] eqn:H;
      [vm_compute in H; discriminate H|].
    destruct e as [|d response|d response| |e]; try (vm_compute in H; discriminate H).
    exists d, response. split; [reflexivity|].
    destruct (proj1 (proj2 (operation_errors_follow_the_status Json.loads Scenario.auth
                              Scenario.http Scenario.proxies_left Scenario.sms_extra_call
                              (Scenario.store [Scenario.unavailable_json]))) d response H)
      as (H200 & H401 & Hd & _).
    split; [exact H200|]. split; [exact H401 | exact Hd].
Defined.

(** X2, an instance: the two calls of a [PhoneId.standard] run. *)
Example standard_trace :
  s_trace (invoke Json.loads Scenario.auth Scenario.http Scenario.proxies_left Scenario.standard_call
             (Scenario.store [Scenario.ok_json])).2 =
  [CallGenerateAuthHeaders "CUST1" "dGVzdGtleQ==" "/v1/phoneid/standard/13105551212"
     "GET" None;
   CallRequests (mkRequest GET "https://rest.telesign.com/v1/phoneid/standard/13105551212"
                   (Some {[ "ucid" := "ATCK" ]}) None (Scenario.signed_headers "CUST1")
                   None)].
Proof. vm_compute. reflexivity. Qed.

(** X7, witness: [Verify.sms] with an [extra] overriding [phone_number]. *)
Lemma extra_adds_or_overrides_only_witness :
  fields_of Scenario.sms_extra_call =
    {[ "phone_number" := "13107409700" ]} ∪
    fields_of (with_extra None Scenario.sms_extra_call) ∧
  (∀ k, ({[ "phone_number" := "13107409700" ]} : gmap string string) !! k = None →
        fields_of Scenario.sms_extra_call !! k =
        fields_of (with_extra None Scenario.sms_extra_call) !! k) ∧
  (∀ k, is_Some (fields_of (with_extra None Scenario.sms_extra_call) !! k) →
        is_Some (fields_of Scenario.sms_extra_call !! k)).
Proof.
  exact (extra_adds_or_overrides_only Scenario.sms_extra_call
           {[ "phone_number" := "13107409700" ]} eq_refl).
Defined.

(** X8, witness: [Verify.sms] called with a phone number only; the
    [language] field holds the default. *)
Lemma fields_hold_arguments_and_defaults_witness :
  "en" ∈ passed_values (SiteSms "13105551212" None None None None None None) ∨
  "en" ∈ default_values (SiteSms "13105551212" None None None None None None) ∨
  ∃ ex, extra_of (bind_defaults (SiteSms "13105551212" None None None None None None))
          = Some ex ∧ ex !! "language" = Some "en".
Proof.
  exact (fields_hold_arguments_and_defaults
           (SiteSms "13105551212" None None None None None None) "language" "en" eq_refl).
Defined.

(** X9, witness: [PhoneId.score] with an empty use-case code. *)
Lemma unconditional_fields_are_always_sent_witness :
  is_Some (fields_of (OpScore "13105551212" "" None) !! "ucid").
Proof.
  apply (unconditional_fields_are_always_sent (OpScore "13105551212" "" None) "ucid").
  apply list_elem_of_here.
Defined.

(** X10, witness: the empty code in [Verify.sms] and in [Verify.status]. *)
Lemma optional_fields_follow_their_guards_witness :
  fields_of Outage.sms_empty_code_call !! "verify_code" = None ∧
  fields_of (OpStatus "ABCDEF0123456789" (Some "") None) !! "verify_code" = Some "".
Proof.
  split.
  - exact (proj1 (proj1 optional_fields_follow_their_guards
                    "13105551212" (Some "") "en" "" None None None) eq_refl).
  - exact (proj1 (proj2 (proj2 optional_fields_follow_their_guards))
             "ABCDEF0123456789" (Some "") None eq_refl).
Defined.

(** X11, witness: two [PhoneId.standard] calls for one phone number. *)
Lemma query_resources_are_distinct_witness :
  endpoint Scenario.standard_call = endpoint Scenario.standard_extra_call ∧
  path_argument Scenario.standard_call = path_argument Scenario.standard_extra_call.
Proof.
  exact (query_resources_are_distinct Scenario.standard_call Scenario.standard_extra_call
           eq_refl eq_refl eq_refl).
Defined.

(** X12, an instance: ten draws 3, 10, 17, ... of the scripted source. *)
Example code_of_scripted_draws :
  code_of_draws (draws Scenario.rng) 0 10 = "3074185296".
Proof. reflexivity. Qed.

(** X13, witness: two digits, then four. *)
Lemma consecutive_codes_concatenate_witness :
  ∃ s1 s2,
    (random_with_n_digits (JSON := Json.value) (ExtExn := string) 2 (Scenario.store [])).1
      = Returned s1 ∧
    (random_with_n_digits (JSON := Json.value) (ExtExn := string) 4
       (random_with_n_digits (JSON := Json.value) (ExtExn := string) 2
          (Scenario.store [])).2).1 = Returned s2 ∧
    (random_with_n_digits (JSON := Json.value) (ExtExn := string) (2 + 4)
       (Scenario.store [])).1 = Returned (s1 +:+ s2) ∧
    s_rng (random_with_n_digits (JSON := Json.value) (ExtExn := string) 4
             (random_with_n_digits (JSON := Json.value) (ExtExn := string) 2
                (Scenario.store [])).2).2 =
    s_rng (random_with_n_digits (JSON := Json.value) (ExtExn := string) (2 + 4)
             (Scenario.store [])).2.
Proof.
  apply (consecutive_codes_concatenate (JSON := Json.value) (ExtExn := string) 2 4
           (Scenario.store [])); lia.
Defined.

(** X14, witness: the code of six zeros. *)
Lemma every_code_can_be_drawn_witness :
  ∃ d,
    (random_with_n_digits (JSON := Json.value) (ExtExn := string) 6
       (mkStore Scenario.client (mkSystemRandom d 0) ([] : Scenario.World) [])).1
    = Returned "000000".
Proof.
  exact (every_code_can_be_drawn (JSON := Json.value) (ExtExn := string) "000000"
           (Scenario.store []) eq_refl).
Defined.

(** X15, witness: [Verify.sms] with the empty string as code. *)
Lemma falsy_code_is_kept_but_not_sent_witness :
  (∃ fields tail,
     s_trace (invoke Json.loads Scenario.auth Scenario.http Scenario.proxies_left Outage.sms_empty_code_call
                (Scenario.store [Scenario.ok_json])).2 =
       [] ++ CallGenerateAuthHeaders "CUST1" "dGVzdGtleQ==" "/v1/verify/sms" "POST"
               (Some fields) :: tail ∧
     fields !! "verify_code" = None) ∧
  ∃ r, (invoke Json.loads Scenario.auth Scenario.http Scenario.proxies_left Outage.sms_empty_code_call
          (Scenario.store [Scenario.ok_json])).1 = Returned r ∧
       verify_code r = Some "".
Proof.
  destruct (falsy_code_is_kept_but_not_sent Json.loads Scenario.auth Scenario.http Scenario.proxies_left
              Outage.sms_empty_code_call (Scenario.store [Scenario.ok_json])
              eq_refl eq_refl eq_refl) as (fields & tail & Htr & Hno & _ & Hr).
  split.
  - exists fields, tail. split; [exact Htr | exact Hno].
  - destruct (invoke Json.loads Scenario.auth Scenario.http Scenario.proxies_left Outage.sms_empty_code_call
                (Scenario.store [Scenario.ok_json])).1 as [r|e] eqn:H.
    + exists r. split; [reflexivity | exact (Hr r eq_refl)].
    + vm_compute in H. discriminate H.
Defined.
